(** * WakaTime MCP server: client and response shaping

    A shallow embedding of [src/wakatime_client.py] and [src/server.py].

    Numbers.  Upstream durations and percentages are JSON numbers that
    Python reads as [int] or [float]; they are embedded by their exact
    value in [Q].  Sums, products and quotients are exact, so the
    rounding error of binary floating point is left out; [//] is the
    floor of the quotient, [int()] truncates toward zero and
    [round(x, 1)] rounds the exact value to the nearest tenth, ties to
    even.

    Payloads.  Upstream JSON objects are embedded as records whose
    fields are [option]s: [None] is an absent key, which is what the
    [dict.get(key, default)] calls of the source test for.  A payload
    of another shape than the upstream schema has no embedding.

    Effects.  The tools run in a small state-and-exception monad over
    a [world] that holds the module-level client singleton and the log
    of requests handed to the HTTP transport. *)

From Stdlib Require Import ZArith QArith Qround Bool List String Ascii.
From Stdlib Require Import DecimalString Lia Lqa Permutation Sorted.
Import ListNotations.

Open Scope string_scope.
Open Scope Z_scope.

(* ================================================================== *)
(** * Python primitives *)
(* ================================================================== *)

Module Py.

(** [str(n)] / [f"{n}"] for an integer. *)
Definition str (n : Z) : string := NilZero.string_of_int (Z.to_int n).

(** [x < y] on numbers. *)
Definition ltb (x y : Q) : bool := negb (Qle_bool y x).

(** [int(x)]: truncation toward zero. *)
Definition int (x : Q) : Z := Z.quot (Qnum x) (Zpos (Qden x)).

(** [x // y] for a positive [y]: the floor of the quotient. *)
Definition floordiv (x y : Q) : Z := Qfloor (x / y).

(** Nearest integer, ties to even. *)
Definition round_half_even (x : Q) : Z :=
  let f := Qfloor x in
  match (x - inject_Z f ?= 1 # 2)%Q with
  | Lt => f
  | Gt => f + 1
  | Eq => if Z.even f then f else f + 1
  end.

(** [round(x, 1)]. *)
Definition round1 (x : Q) : Q := Qmake (round_half_even (x * 10)) 10.

(** Truthiness of an optional string: [None] and [""] are falsy. *)
Definition truthy (s : option string) : bool :=
  match s with
  | Some (String _ _) => true
  | _ => false
  end.

End Py.

(* ================================================================== *)
(** * datetime.date *)
(* ================================================================== *)

(** The part of the standard library's [date] that the server uses:
    construction from an ISO string, comparison, difference in days,
    the day before, and [isoformat].  Dates are proleptic Gregorian
    with years 1 to 9999. *)

Module Date.

Record date := mkdate { year : Z; month : Z; day : Z }.

Definition is_leap (y : Z) : bool :=
  (y mod 4 =? 0) && (negb (y mod 100 =? 0) || (y mod 400 =? 0)).

Definition days_in_month (y m : Z) : Z :=
  match m with
  | 1 | 3 | 5 | 7 | 8 | 10 | 12 => 31
  | 4 | 6 | 9 | 11 => 30
  | 2 => if is_leap y then 29 else 28
  | _ => 0
  end.

Definition validb (d : date) : bool :=
  (1 <=? year d) && (year d <=? 9999) &&
  (1 <=? month d) && (month d <=? 12) &&
  (1 <=? day d) && (day d <=? days_in_month (year d) (month d)).

Definition valid (d : date) : Prop := validb d = true.

Definition days_before_year (y : Z) : Z :=
  let p := y - 1 in p * 365 + p / 4 - p / 100 + p / 400.

Definition days_before_month (y m : Z) : Z :=
  let leap := if is_leap y then 1 else 0 in
  match m with
  | 1 => 0
  | 2 => 31
  | 3 => 59 + leap
  | 4 => 90 + leap
  | 5 => 120 + leap
  | 6 => 151 + leap
  | 7 => 181 + leap
  | 8 => 212 + leap
  | 9 => 243 + leap
  | 10 => 273 + leap
  | 11 => 304 + leap
  | _ => 334 + leap
  end.

(** [d.toordinal()]: 0001-01-01 is day 1. *)
Definition toordinal (d : date) : Z :=
  days_before_year (year d) + days_before_month (year d) (month d) + day d.

(** [d1 < d2] and [d1 == d2]: dates compare as (year, month, day). *)
Definition ltb (d1 d2 : date) : bool :=
  (year d1 <? year d2) ||
  ((year d1 =? year d2) &&
   ((month d1 <? month d2) ||
    ((month d1 =? month d2) && (day d1 <? day d2)))).

Definition eqb (d1 d2 : date) : bool :=
  (year d1 =? year d2) && (month d1 =? month d2) && (day d1 =? day d2).

(** [(d2 - d1).days]. *)
Definition days_between (d2 d1 : date) : Z := toordinal d2 - toordinal d1.

(** [d - timedelta(days=1)]; [None] stands for the [OverflowError]
    raised below 0001-01-01. *)
Definition day_before (d : date) : option date :=
  if 1 <? day d then Some (mkdate (year d) (month d) (day d - 1))
  else if 1 <? month d then
    Some (mkdate (year d) (month d - 1) (days_in_month (year d) (month d - 1)))
  else if 1 <? year d then Some (mkdate (year d - 1) 12 31)
  else None.

(** [d - timedelta(days=n)], one day at a time. *)
Fixpoint days_back (n : nat) (d : date) : option date :=
  match n with
  | O => Some d
  | S n' =>
      match day_before d with
      | Some y => days_back n' y
      | None => None
      end
  end.

Definition digit (k : Z) : ascii := ascii_of_nat (48 + Z.to_nat k).

Definition pad2 (n : Z) : string :=
  String (digit (n / 10)) (String (digit (n mod 10)) "").

Definition pad4 (n : Z) : string :=
  String (digit (n / 1000)) (String (digit (n / 100 mod 10)) (pad2 (n mod 100))).

(** [d.isoformat()], which for a four-digit year is also
    [d.strftime("%Y-%m-%d")]. *)
Definition isoformat (d : date) : string :=
  pad4 (year d) ++ "-" ++ pad2 (month d) ++ "-" ++ pad2 (day d).

Definition digit_val (c : ascii) : option Z :=
  let n := Z.of_nat (nat_of_ascii c) in
  if (48 <=? n) && (n <=? 57) then Some (n - 48) else None.

Definition number (cs : list ascii) : option Z :=
  fold_left
    (fun acc c =>
       match acc, digit_val c with
       | Some a, Some k => Some (10 * a + k)
       | _, _ => None
       end)
    cs (Some 0).

(** [date.fromisoformat(s)] for the [YYYY-MM-DD] form, the one the
    docstring of [parse_date] names; [None] stands for the [ValueError]
    raised on any other string and on a day that does not exist.  The
    other ISO 8601 forms that Python 3.11 and later also read are not
    embedded. *)
Definition fromisoformat (s : string) : option date :=
  match list_ascii_of_string s with
  | [y1; y2; y3; y4; "-"%char; m1; m2; "-"%char; d1; d2] =>
      match number [y1; y2; y3; y4], number [m1; m2], number [d1; d2] with
      | Some y, Some m, Some d =>
          let r := mkdate y m d in
          if validb r then Some r else None
      | _, _, _ => None
      end
  | _ => None
  end.

End Date.

(* ================================================================== *)
(** * base64 *)
(* ================================================================== *)

(** [base64.b64encode] on the bytes of a string, with the standard
    alphabet and [=] padding, and the decoding that undoes it. *)

Module Base64.

Definition alphabet : list ascii :=
  list_ascii_of_string
    "ABCDEFGHIJKLMNOPQRSTUVWXYZabcdefghijklmnopqrstuvwxyz0123456789+/".

Definition byte (c : ascii) : Z := Z.of_N (N_of_ascii c).

Definition of_byte (n : Z) : ascii := ascii_of_N (Z.to_N n).

(** The character of a six-bit value, and back. *)
Definition enc (i : Z) : ascii := nth (Z.to_nat i) alphabet "="%char.

Fixpoint index_of (c : ascii) (l : list ascii) (i : Z) : option Z :=
  match l with
  | [] => None
  | x :: l' => if Ascii.eqb c x then Some i else index_of c l' (i + 1)
  end.

Definition dec (c : ascii) : option Z := index_of c alphabet 0.

Fixpoint b64encode (bytes : list ascii) : list ascii :=
  match bytes with
  | a :: b :: c :: rest =>
      let n := 65536 * byte a + 256 * byte b + byte c in
      enc (n / 262144) :: enc (n / 4096 mod 64) :: enc (n / 64 mod 64) ::
      enc (n mod 64) :: b64encode rest
  | [a; b] =>
      let n := 65536 * byte a + 256 * byte b in
      [enc (n / 262144); enc (n / 4096 mod 64); enc (n / 64 mod 64);
       "="%char]
  | [a] =>
      let n := 65536 * byte a in
      [enc (n / 262144); enc (n / 4096 mod 64); "="%char; "="%char]
  | [] => []
  end.

Fixpoint b64decode (chars : list ascii) : option (list ascii) :=
  match chars with
  | [] => Some []
  | c1 :: c2 :: c3 :: c4 :: rest =>
      match dec c1, dec c2 with
      | Some i1, Some i2 =>
          if Ascii.eqb c3 "="%char then
            match rest with
            | [] => if Ascii.eqb c4 "="%char
                    then Some [of_byte (i1 * 4 + i2 / 16)]
                    else None
            | _ => None
            end
          else
            match dec c3 with
            | Some i3 =>
                if Ascii.eqb c4 "="%char then
                  match rest with
                  | [] => Some [of_byte (i1 * 4 + i2 / 16);
                                of_byte (i2 mod 16 * 16 + i3 / 4)]
                  | _ => None
                  end
                else
                  match dec c4, b64decode rest with
                  | Some i4, Some bytes =>
                      Some (of_byte (i1 * 4 + i2 / 16) ::
                            of_byte (i2 mod 16 * 16 + i3 / 4) ::
                            of_byte (i3 mod 4 * 64 + i4) :: bytes)
                  | _, _ => None
                  end
            | None => None
            end
      | _, _ => None
      end
  | _ => None
  end.

End Base64.

(* ================================================================== *)
(** * Exceptions, values and upstream payloads *)
(* ================================================================== *)

(** The exception classes of [wakatime_client.py].  [WakaTimeError] is
    the base class raised as such; [OtherError] is any exception from
    outside that hierarchy (a body that is not JSON, a transport
    failure, an [OverflowError]), with its [str()]. *)
Inductive exn :=
| WakaTimeAuthError (msg : string)
| WakaTimeRateLimitError (msg : string)
| WakaTimeNotReadyError (msg : string)
| WakaTimeError (msg : string)
| OtherError (msg : string).

Inductive result (A : Type) :=
| Ok (a : A)
| Raise (e : exn).
Arguments Ok {A} a.
Arguments Raise {A} e.

(** The JSON-serialisable values the tools return; a mapping keeps its
    keys in insertion order. *)
#[local] Unset Elimination Schemes.
Inductive pyval :=
| PNone
| PBool (b : bool)
| PNum (x : Q)
| PStr (s : string)
| PList (l : list pyval)
| PDict (d : list (string * pyval)).
#[local] Set Elimination Schemes.

Fixpoint lookup {V : Type} (k : string) (d : list (string * V)) : option V :=
  match d with
  | [] => None
  | (k', v) :: d' => if String.eqb k k' then Some v else lookup k d'
  end.

(** [d[k]] of a returned mapping. *)
Definition field (k : string) (v : pyval) : option pyval :=
  match v with
  | PDict d => lookup k d
  | _ => None
  end.

Definition opt_str (s : option string) : pyval :=
  match s with
  | Some x => PStr x
  | None => PNone
  end.

(** [o.get(key, default)] on a field that may be absent. *)
Definition get {A : Type} (o : option A) (default : A) : A :=
  match o with
  | Some a => a
  | None => default
  end.

(** One entry of an upstream breakdown list. *)
Record item := mkitem {
  name : option string;
  text : option string;
  percent : option Q;
  total_seconds : option Q
}.

Record grand_total_t := mkgrand {
  gt_text : option string;
  gt_total_seconds : option Q
}.

(** One daily summary; [range_date] is [range.date]. *)
Record day_summary := mkday {
  grand_total : option grand_total_t;
  range_date : option string;
  projects : option (list item);
  languages : option (list item);
  editors : option (list item);
  categories : option (list item)
}.

Record best_day_t := mkbest {
  bd_date : option string;
  bd_text : option string;
  bd_total_seconds : option Q
}.

(** The [data] object of the stats endpoint. *)
Record stats_t := mkstats {
  human_readable_range : option string;
  human_readable_total : option string;
  st_total_seconds : option Q;
  human_readable_daily_average : option string;
  days_including_holidays : option Q;
  days_minus_holidays : option Q;
  best_day : option best_day_t;
  st_languages : option (list item);
  st_projects : option (list item);
  st_editors : option (list item);
  st_operating_systems : option (list item);
  st_categories : option (list item)
}.

(** The [range] object of the all-time endpoint. *)
Record range_info_t := mkrange {
  start_text : option string;
  end_text : option string;
  ri_start_date : option string;
  ri_end_date : option string
}.

(** The [data] object of the all-time endpoint. *)
Record all_time_t := mkalltime {
  at_text : option string;
  at_total_seconds : option Q;
  at_daily_average : option Q;
  is_up_to_date : option bool;
  at_range : option range_info_t
}.

(** The [data] object of the status-bar endpoint; [cached_at] is
    [None] when the key is absent or null. *)
Record status_bar_t := mkstatusbar {
  sb_grand_total : option grand_total_t;
  sb_categories : option (list item);
  cached_at : option string
}.

(** One entry of the projects endpoint. *)
Record project_t := mkproject {
  pj_name : option string;
  pj_id : option string;
  last_heartbeat_at : option string;
  created_at : option string;
  has_public_url : option bool
}.

(** A parsed JSON body with payload type [D]: the top-level [error]
    key, [data.percent_calculated] and the [data] payload. *)
Record json_body (D : Type) := mkbody {
  jb_error : option string;
  jb_percent_calculated : option Z;
  jb_data : option D
}.
Arguments mkbody {D}.
Arguments jb_error {D}.
Arguments jb_percent_calculated {D}.
Arguments jb_data {D}.

(** An HTTP response; [json] is [None] when the body is not JSON and
    [response.json()] raises. *)
Record response (D : Type) := mkresponse {
  status_code : Z;
  body_text : string;
  json : option (json_body D)
}.
Arguments mkresponse {D}.
Arguments status_code {D}.
Arguments body_text {D}.
Arguments json {D}.

(** What is handed to the transport; [req_key] is the key that the
    [Authorization: Basic] header carries. *)
Record request := mkrequest {
  req_method : string;
  req_url : string;
  req_key : string;
  req_params : list (string * string)
}.

Record client := mkclient {
  base_url : string;
  timeout : Q;
  api_key : string
}.

(** The process around the code: the [WAKATIME_API_KEY] variable,
    [date.today()] and the HTTP transport, whose failures are
    exceptions outside the [WakaTimeError] hierarchy. *)
Record environment (D : Type) := mkenv {
  environ_key : option string;
  today : Date.date;
  transport : request -> result (response D)
}.
Arguments mkenv {D}.
Arguments environ_key {D}.
Arguments today {D}.
Arguments transport {D}.

(** The mutable state: the module global [_client] and the requests
    sent so far, oldest first. *)
Record world := mkworld {
  the_client : option client;
  sent : list request
}.

(** State and exceptions. *)
Definition M (A : Type) : Type := world -> result A * world.

Definition ret {A : Type} (a : A) : M A := fun w => (Ok a, w).

Definition raise {A : Type} (e : exn) : M A := fun w => (Raise e, w).

Definition bind {A B : Type} (m : M A) (k : A -> M B) : M B :=
  fun w =>
    match m w with
    | (Ok a, w') => k a w'
    | (Raise e, w') => (Raise e, w')
    end.

(** [try: m except Exception as e: return h(e)]. *)
Definition try_except {A : Type} (m : M A) (h : exn -> A) : M A :=
  fun w =>
    match m w with
    | (Ok a, w') => (Ok a, w')
    | (Raise e, w') => (Ok (h e), w')
    end.

Notation "x <- m ;; k" := (bind m (fun x => k))
  (at level 61, m at next level, right associativity).

(* ================================================================== *)
(** * wakatime_client.py *)
(* ================================================================== *)

Module WakaTimeClient.

Definition default_base_url : string := "https://api.wakatime.com/api/v1".

(** [WakaTimeClient.__init__]: the key given, else the one of the
    environment; a missing or empty key raises. *)
Definition __init__ (explicit_key : option string) (url : string)
    (deadline : Q) (environ : option string) : result client :=
  let key := match explicit_key with
             | None => environ
             | Some k => Some k
             end in
  if negb (Py.truthy key) then
    Raise (WakaTimeAuthError
      ("WAKATIME_API_KEY environment variable not set. " ++
       "Get your API key from https://wakatime.com/settings/api-key"))
  else Ok (mkclient url deadline (get key "")).

(** The status dispatch of [_request], once the response is in. *)
Definition dispatch {D : Type} (r : response D) : result (json_body D) :=
  let parsed := match json r with
                | Some b => Ok b
                | None => Raise (OtherError "Expecting value")
                end in
  if status_code r =? 401 then Raise (WakaTimeAuthError "Invalid API key")
  else if status_code r =? 202 then
    match parsed with
    | Raise e => Raise e
    | Ok data =>
        let percent := get (jb_percent_calculated data) 0 in
        Raise (WakaTimeNotReadyError
          ("Stats are still being computed (" ++ Py.str percent ++
           "% complete). Try again in a few seconds."))
    end
  else if status_code r =? 429 then
    Raise (WakaTimeRateLimitError
      ("Rate limit exceeded. WakaTime allows ~10 requests/second. " ++
       "Please wait a moment before trying again."))
  else if 400 <=? status_code r then
    match parsed with
    | Raise e => Raise e
    | Ok data =>
        let error_msg := get (jb_error data) (body_text r) in
        Raise (WakaTimeError
          ("API error (" ++ Py.str (status_code r) ++ "): " ++ error_msg))
    end
  else parsed.

Section Requests.

Context {D : Type} (env : environment D).

(** [WakaTimeClient._request]: one request goes to the transport and
    is logged; the outcome follows the status code. *)
Definition _request (self : client) (method endpoint : string)
    (params : list (string * string)) : M (json_body D) :=
  fun w =>
    let req := mkrequest method (base_url self ++ endpoint) (api_key self) params in
    let w' := mkworld (the_client w) (app (sent w) [req]) in
    match transport env req with
    | Raise e => (Raise e, w')
    | Ok r => (dispatch r, w')
    end.

Definition get_ (self : client) (endpoint : string)
    (params : list (string * string)) : M (json_body D) :=
  _request self "GET" endpoint params.

(** [WakaTimeClient.get_date_string]. *)
Definition get_date_string (d : option Date.date) : string :=
  Date.isoformat (get d (today env)).

(** [WakaTimeClient.get_summaries]: the raw envelope. *)
Definition get_summaries (self : client) (start end_ : option Date.date)
    (project : option string) : M (json_body D) :=
  let start := get start (today env) in
  let end_ := get end_ start in
  let params := [("start", get_date_string (Some start));
                 ("end", get_date_string (Some end_))] in
  let params := if Py.truthy project
                then app params [("project", get project "")]
                else params in
  get_ self "/users/current/summaries" params.

(** [WakaTimeClient.get_stats]: the [data] of the envelope, [None]
    being the empty object. *)
Definition get_stats (self : client) (range : string) : M (option D) :=
  response <- get_ self ("/users/current/stats/" ++ range) [] ;;
  ret (jb_data response).

End Requests.

(** [WakaTimeClient.format_seconds]. *)
Definition format_seconds (seconds : Q) : string :=
  if Py.ltb seconds 60 then Py.str (Py.int seconds) ++ " secs"
  else
    let minutes := Py.floordiv seconds 60 in
    if minutes <? 60 then Py.str minutes ++ " mins"
    else
      let hours := minutes / 60 in
      let remaining_mins := minutes mod 60 in
      if hours <? 24 then
        if remaining_mins =? 0 then Py.str hours ++ " hrs"
        else Py.str hours ++ " hrs " ++ Py.str remaining_mins ++ " mins"
      else
        let days := hours / 24 in
        let remaining_hours := hours mod 24 in
        if remaining_hours =? 0 then Py.str days ++ " days"
        else Py.str days ++ " days " ++ Py.str remaining_hours ++ " hrs".

(** [WakaTimeClient._get_auth_header]: the key alone, base64-encoded. *)
Definition _get_auth_header (self : client) : list (string * string) :=
  let encoded :=
    string_of_list_ascii
      (Base64.b64encode (list_ascii_of_string (api_key self))) in
  [("Authorization", "Basic " ++ encoded)].

Section Endpoints.

Context {D : Type} (env : environment D).

(** [WakaTimeClient.get_current_user]. *)
Definition get_current_user (self : client) : M (option D) :=
  response <- get_ env self "/users/current" [] ;;
  ret (jb_data response).

(** [WakaTimeClient.get_all_time_since_today]. *)
Definition get_all_time_since_today (self : client)
    (project : option string) : M (option D) :=
  let params := if Py.truthy project
                then [("project", get project "")]
                else [] in
  response <- get_ env self "/users/current/all_time_since_today" params ;;
  ret (jb_data response).

(** [WakaTimeClient.get_status_bar]. *)
Definition get_status_bar (self : client) : M (option D) :=
  response <- get_ env self "/users/current/status_bar/today" [] ;;
  ret (jb_data response).

(** [WakaTimeClient.get_durations]: the raw envelope. *)
Definition get_durations (self : client) (date : option Date.date)
    (project : option string) : M (json_body D) :=
  let date := get date (today env) in
  let params := [("date", get_date_string env (Some date))] in
  let params := if Py.truthy project
                then app params [("project", get project "")]
                else params in
  get_ env self "/users/current/durations" params.

End Endpoints.

Section Listings.

Context {P : Type} (env : environment (list P)).

(** [WakaTimeClient.get_projects]. *)
Definition get_projects (self : client) (query : option string)
    : M (list P) :=
  let params := if Py.truthy query then [("q", get query "")] else [] in
  response <- get_ env self "/users/current/projects" params ;;
  ret (get (jb_data response) []).

(** [WakaTimeClient.get_goals]. *)
Definition get_goals (self : client) : M (list P) :=
  response <- get_ env self "/users/current/goals" [] ;;
  ret (get (jb_data response) []).

End Listings.

End WakaTimeClient.

(* ================================================================== *)
(** * server.py *)
(* ================================================================== *)

Module Server.

(** [get_client]: the module-level singleton, built on first use from
    the environment. *)
Definition get_client {D : Type} (env : environment D) : M client :=
  fun w =>
    match the_client w with
    | Some c => (Ok c, w)
    | None =>
        match WakaTimeClient.__init__ None WakaTimeClient.default_base_url
                30 (environ_key env) with
        | Ok c => (Ok c, mkworld (Some c) (sent w))
        | Raise e => (Raise e, w)
        end
    end.

Definition str_of_exn (e : exn) : string :=
  match e with
  | WakaTimeAuthError m | WakaTimeRateLimitError m
  | WakaTimeNotReadyError m | WakaTimeError m | OtherError m => m
  end.

(** [format_error]. *)
Definition format_error (e : exn) : pyval :=
  match e with
  | WakaTimeAuthError _ =>
      PDict [("error", PStr "Authentication failed");
             ("message", PStr (str_of_exn e));
             ("help", PStr "Set WAKATIME_API_KEY environment variable with your API key from https://wakatime.com/settings/api-key")]
  | WakaTimeRateLimitError _ =>
      PDict [("error", PStr "Rate limit exceeded");
             ("message", PStr (str_of_exn e));
             ("help", PStr "WakaTime allows ~10 requests/second. Wait a moment and try again.")]
  | WakaTimeNotReadyError _ =>
      PDict [("error", PStr "Stats computing");
             ("message", PStr (str_of_exn e));
             ("help", PStr "WakaTime is still calculating your stats. Try again in a few seconds.")]
  | _ =>
      PDict [("error", PStr "API error");
             ("message", PStr (str_of_exn e))]
  end.

(** The reshaping shared by the tools: [name], [time] and the percent
    rounded to one decimal, with [total_seconds] when [with_seconds]. *)
Definition reshape (with_seconds : bool) (it : item) : pyval :=
  PDict (app [("name", opt_str (name it));
              ("time", PStr (get (text it) ""));
              ("percent", PNum (Py.round1 (get (percent it) 0%Q)))]
             (if with_seconds
              then [("total_seconds", PNum (get (total_seconds it) 0%Q))]
              else [])).

Inductive StatsRange :=
| last_7_days | last_30_days | last_6_months | last_year | all_time.

Definition range_name (r : StatsRange) : string :=
  match r with
  | last_7_days => "last_7_days"
  | last_30_days => "last_30_days"
  | last_6_months => "last_6_months"
  | last_year => "last_year"
  | all_time => "all_time"
  end.

Definition empty_stats : stats_t :=
  mkstats None None None None None None None None None None None None.

(** [get_coding_stats]. *)
Definition get_coding_stats (env : environment stats_t) (range : StatsRange)
    : M pyval :=
  try_except
    (client <- get_client env ;;
     data <- WakaTimeClient.get_stats env client (range_name range) ;;
     let stats := get data empty_stats in
     let result :=
       [("range", PStr (get (human_readable_range stats) (range_name range)));
        ("total_time", PStr (get (human_readable_total stats) "0 mins"));
        ("total_seconds", PNum (get (st_total_seconds stats) 0%Q));
        ("daily_average",
           PStr (get (human_readable_daily_average stats) "0 mins"));
        ("days_including_holidays",
           PNum (get (days_including_holidays stats) 0%Q));
        ("days_minus_holidays", PNum (get (days_minus_holidays stats) 0%Q))] in
     let result :=
       match best_day stats with
       | Some b =>
           app result
            [("best_day",
              PDict [("date", opt_str (bd_date b));
                     ("time", PStr (get (bd_text b) ""));
                     ("total_seconds", PNum (get (bd_total_seconds b) 0%Q))])]
       | None => result
       end in
     let languages := get (st_languages stats) [] in
     let projects := get (st_projects stats) [] in
     let editors := get (st_editors stats) [] in
     let operating_systems := get (st_operating_systems stats) [] in
     let categories := get (st_categories stats) [] in
     ret (PDict
       (app result
        [("languages", PList (map (reshape true) (firstn 10 languages)));
         ("projects", PList (map (reshape true) (firstn 10 projects)));
         ("editors", PList (map (reshape false) (firstn 5 editors)));
         ("operating_systems",
            PList (map (reshape false) (firstn 5 operating_systems)));
         ("categories", PList (map (reshape false) (firstn 5 categories)))])))
    format_error.

(** [parse_date]. *)
Definition parse_date (date_str : option string) : option Date.date :=
  if negb (Py.truthy date_str) then None
  else Date.fromisoformat (get date_str "").

(** [totals[k] = v]: an existing key keeps its place, a new key goes
    last. *)
Fixpoint dict_set (k : string) (v : Q) (totals : list (string * Q))
    : list (string * Q) :=
  match totals with
  | [] => [(k, v)]
  | (k', v') :: rest =>
      if String.eqb k k' then (k, v) :: rest
      else (k', v') :: dict_set k v rest
  end.

(** One inner loop of the aggregation:
    [totals[name] = totals.get(name, 0) + x.get("total_seconds", 0)]
    for every entry [x] of one breakdown list. *)
Definition accumulate (totals : list (string * Q)) (items : list item)
    : list (string * Q) :=
  fold_left
    (fun totals x =>
       let name := get (name x) "Unknown" in
       dict_set name
         (get (lookup name totals) 0%Q + get (total_seconds x) 0%Q)%Q totals)
    items totals.

(** The accumulators of the multi-day path. *)
Record totals_t := mktotals {
  total : Q;
  project_totals : list (string * Q);
  language_totals : list (string * Q);
  editor_totals : list (string * Q);
  category_totals : list (string * Q)
}.

Definition empty_grand : grand_total_t := mkgrand None None.

(** The body of [for day_summary in summaries]. *)
Definition add_day (acc : totals_t) (day_summary : day_summary) : totals_t :=
  let grand_total := get (grand_total day_summary) empty_grand in
  mktotals
    (total acc + get (gt_total_seconds grand_total) 0%Q)%Q
    (accumulate (project_totals acc) (get (projects day_summary) []))
    (accumulate (language_totals acc) (get (languages day_summary) []))
    (accumulate (editor_totals acc) (get (editors day_summary) []))
    (accumulate (category_totals acc) (get (categories day_summary) [])).

Definition aggregate (summaries : list day_summary) : totals_t :=
  fold_left add_day summaries (mktotals 0 [] [] [] []).

(** [sorted(totals.items(), key=lambda x: x[1], reverse=True)]: a
    stable sort, larger values first, ties in their original order. *)
Fixpoint insert_desc (x : string * Q) (l : list (string * Q))
    : list (string * Q) :=
  match l with
  | [] => [x]
  | y :: l' =>
      if Py.ltb (snd x) (snd y) then y :: insert_desc x l' else x :: y :: l'
  end.

Definition sorted_desc (l : list (string * Q)) : list (string * Q) :=
  fold_right insert_desc [] l.

(** One entry of [format_breakdown]. *)
Definition breakdown_entry (total_seconds : Q) (x : string * Q) : pyval :=
  let (name, secs) := x in
  PDict [("name", PStr name);
         ("time", PStr (WakaTimeClient.format_seconds secs));
         ("percent",
            PNum (if Py.ltb 0 total_seconds
                  then Py.round1 ((secs / total_seconds) * 100)
                  else 0%Q));
         ("total_seconds", PNum secs)].

(** The local function [format_breakdown] of [get_summary]. *)
Definition format_breakdown (total_seconds : Q) (totals : list (string * Q))
    (limit : nat) : list pyval :=
  let sorted_items := firstn limit (sorted_desc totals) in
  map (breakdown_entry total_seconds) sorted_items.

(** The multi-day branch of [get_summary]. *)
Definition range_result (start end_ : Date.date)
    (summaries : list day_summary) : list (string * pyval) :=
  let t := aggregate summaries in
  let total_seconds := total t in
  let num_days := Date.days_between end_ start + 1 in
  [("start_date", PStr (Date.isoformat start));
   ("end_date", PStr (Date.isoformat end_));
   ("num_days", PNum (inject_Z num_days));
   ("total_time", PStr (WakaTimeClient.format_seconds total_seconds));
   ("total_seconds", PNum total_seconds);
   ("daily_average",
      PStr (if 0 <? num_days
            then WakaTimeClient.format_seconds
                   (total_seconds / inject_Z num_days)
            else "0 mins"));
   ("projects", PList (format_breakdown total_seconds (project_totals t) 10));
   ("languages", PList (format_breakdown total_seconds (language_totals t) 10));
   ("editors", PList (format_breakdown total_seconds (editor_totals t) 5));
   ("categories", PList (format_breakdown total_seconds (category_totals t) 5))].

(** The single-day branch of [get_summary], on [summaries[0]]. *)
Definition single_result (start : Date.date) (summary : day_summary)
    : list (string * pyval) :=
  let grand_total := get (grand_total summary) empty_grand in
  [("date", PStr (get (range_date summary) (Date.isoformat start)));
   ("total_time", PStr (get (gt_text grand_total) "0 mins"));
   ("total_seconds", PNum (get (gt_total_seconds grand_total) 0%Q));
   ("projects",
      PList (map (reshape true) (firstn 10 (get (projects summary) []))));
   ("languages",
      PList (map (reshape false) (firstn 10 (get (languages summary) []))));
   ("editors",
      PList (map (reshape false) (firstn 5 (get (editors summary) []))));
   ("categories",
      PList (map (reshape false) (firstn 5 (get (categories summary) []))))].

(** [get_summary]. *)
Definition get_summary (env : environment (list day_summary))
    (start_date end_date project : option string) : M pyval :=
  try_except
    (client <- get_client env ;;
     let today := today env in
     yesterday <- match Date.day_before today with
                  | Some d => ret d
                  | None => raise (OtherError "date value out of range")
                  end ;;
     let start := get (parse_date start_date) yesterday in
     let end_ := get (parse_date end_date) today in
     if Date.ltb end_ start then
       ret (PDict [("error", PStr "Invalid date range");
                   ("message", PStr "end_date cannot be before start_date")])
     else
       response <- WakaTimeClient.get_summaries env client
                     (Some start) (Some end_) project ;;
       match get (jb_data response) [] with
       | [] =>
           ret (PDict
             [("start_date", PStr (Date.isoformat start));
              ("end_date", PStr (Date.isoformat end_));
              ("total_time", PStr "0 mins");
              ("total_seconds", PNum 0);
              ("message",
                 PStr "No coding activity recorded for this period.")])
       | (summary :: _) as summaries =>
           let is_range := negb (Date.eqb start end_) in
           let result := if is_range
                         then range_result start end_ summaries
                         else single_result start summary in
           let result := if Py.truthy project
                         then app result
                                [("project_filter", PStr (get project ""))]
                         else result in
           ret (PDict result)
       end)
    format_error.

Definition empty_all_time : all_time_t := mkalltime None None None None None.

(** [get_all_time]. *)
Definition get_all_time (env : environment all_time_t)
    (project : option string) : M pyval :=
  try_except
    (client <- get_client env ;;
     data <- WakaTimeClient.get_all_time_since_today env client project ;;
     let data := get data empty_all_time in
     let result :=
       [("total_time", PStr (get (at_text data) "0 mins"));
        ("total_seconds", PNum (get (at_total_seconds data) 0%Q));
        ("daily_average_seconds", PNum (get (at_daily_average data) 0%Q));
        ("is_up_to_date", PBool (get (is_up_to_date data) false))] in
     let result :=
       match at_range data with
       | Some range_info =>
           app result
             [("range",
               PDict [("start", PStr (get (start_text range_info) ""));
                      ("end", PStr (get (end_text range_info) ""));
                      ("start_date", opt_str (ri_start_date range_info));
                      ("end_date", opt_str (ri_end_date range_info))])]
       | None => result
       end in
     let result := if Py.truthy project
                   then app result [("project", PStr (get project ""))]
                   else result in
     let daily_avg := get (at_daily_average data) 0%Q in
     ret (PDict
            (app result
               [("daily_average",
                 PStr (WakaTimeClient.format_seconds daily_avg))])))
    format_error.

Definition empty_status_bar : status_bar_t := mkstatusbar None None None.

(** [get_status_bar]. *)
Definition get_status_bar (env : environment status_bar_t) : M pyval :=
  try_except
    (client <- get_client env ;;
     data <- WakaTimeClient.get_status_bar env client ;;
     let data := get data empty_status_bar in
     let grand_total := get (sb_grand_total data) empty_grand in
     let categories := get (sb_categories data) [] in
     let result :=
       [("today_total", PStr (get (gt_text grand_total) "0 mins"));
        ("today_total_seconds",
           PNum (get (gt_total_seconds grand_total) 0%Q));
        ("is_cached",
           PBool match cached_at data with
                 | Some _ => true
                 | None => false
                 end)] in
     let result :=
       match categories with
       | [] => result
       | _ :: _ =>
           app result
             [("categories",
               PList (map (reshape false) (firstn 5 categories)))]
       end in
     ret (PDict result))
    format_error.

Definition project_entry (proj : project_t) : pyval :=
  PDict [("name", opt_str (pj_name proj));
         ("id", opt_str (pj_id proj));
         ("last_heartbeat_at", opt_str (last_heartbeat_at proj));
         ("created_at", opt_str (created_at proj));
         ("has_public_url", PBool (get (has_public_url proj) false))].

(** [list_projects]. *)
Definition list_projects (env : environment (list project_t))
    (query : option string) : M pyval :=
  try_except
    (client <- get_client env ;;
     projects <- WakaTimeClient.get_projects env client query ;;
     let result :=
       [("total_count", PNum (inject_Z (Z.of_nat (List.length projects))));
        ("projects", PList (map project_entry (firstn 50 projects)))] in
     let result := if Py.truthy query
                   then app result [("query", PStr (get query ""))]
                   else result in
     ret (PDict result))
    format_error.

End Server.

(* ================================================================== *)
(** * The vocabulary of the specification *)
(* ================================================================== *)

(** What the specification says about the multi-day summary, stated
    on the daily summaries themselves and not on the accumulators of
    the code. *)

Module Spec.

Definition Qsum (l : list Q) : Q := fold_right Qplus 0%Q l.

(** The name an entry is counted under, and its seconds. *)
Definition item_name (x : item) : string := get (name x) "Unknown".

Definition item_seconds (x : item) : Q := get (total_seconds x) 0%Q.

(** All entries of one breakdown, over all days, in upstream order. *)
Definition entries (breakdown : day_summary -> option (list item))
    (days : list day_summary) : list item :=
  flat_map (fun d => get (breakdown d) []) days.

(** Seconds accumulated under one name. *)
Definition name_seconds (n : string) (xs : list item) : Q :=
  Qsum (map item_seconds
          (filter (fun x => String.eqb (item_name x) n) xs)).

(** The sum of the days' grand totals. *)
Definition grand_seconds (days : list day_summary) : Q :=
  Qsum (map (fun d =>
               get (gt_total_seconds (get (grand_total d) Server.empty_grand))
                   0%Q)
            days).

(** [round(100 * name_seconds / total_seconds, 1)], and 0 without a
    positive total. *)
Definition percent_of (secs total_seconds : Q) : Q :=
  if Py.ltb 0 total_seconds
  then Py.round1 (100 * secs / total_seconds)
  else 0%Q.

Definition entry (total_seconds : Q) (x : string * Q) : pyval :=
  PDict [("name", PStr (fst x));
         ("time", PStr (WakaTimeClient.format_seconds (snd x)));
         ("percent", PNum (percent_of (snd x) total_seconds));
         ("total_seconds", PNum (snd x))].

Definition descending (a b : string * Q) : Prop := (snd b <= snd a)%Q.

(** [ranked] is the full ranking of a breakdown: every name once, with
    its accumulated seconds, larger totals first. *)
Definition ranking (xs : list item) (ranked : list (string * Q)) : Prop :=
  NoDup (map fst ranked) /\
  (forall n, In n (map fst ranked) <-> exists x, In x xs /\ item_name x = n) /\
  (forall n s, In (n, s) ranked -> (s == name_seconds n xs)%Q) /\
  StronglySorted descending ranked.

(** [out] is the head of [upstream], at most [limit] entries in the
    order received, each reshaped to [name], [time] and the upstream
    percent rounded to one decimal, with [total_seconds] when
    [with_seconds]. *)
Definition shaped (limit : nat) (with_seconds : bool) (upstream : list item)
    (out : list pyval) : Prop :=
  List.length out = Nat.min limit (List.length upstream) /\
  forall i x,
    (i < limit)%nat -> nth_error upstream i = Some x ->
    exists e,
      nth_error out i = Some e /\
      field "name" e = Some (opt_str (name x)) /\
      field "time" e = Some (PStr (get (text x) "")) /\
      field "percent" e = Some (PNum (Py.round1 (get (percent x) 0%Q))) /\
      field "total_seconds" e =
        if with_seconds then Some (PNum (get (total_seconds x) 0%Q)) else None.

(** A world is keyed when the singleton, if built, holds a non-empty
    key and every request sent so far carried one. *)
Definition keyed (w : world) : Prop :=
  (forall c, the_client w = Some c -> api_key c <> "") /\
  Forall (fun r => req_key r <> "") (sent w).

(** [m] appends at most [n] requests to the log and drops none. *)
Definition sends_at_most {A : Type} (n : nat) (m : M A) : Prop :=
  forall w, exists l,
    sent (snd (m w)) = app (sent w) l /\ (List.length l <= n)%nat.

(** From a keyed world [m] ends in a keyed world, and a value it
    returns satisfies [Q]. *)
Definition maintains {A : Type} (m : M A) (Q : A -> Prop) : Prop :=
  forall w, keyed w ->
    keyed (snd (m w)) /\ forall a, fst (m w) = Ok a -> Q a.

(** What a tool returns for an upstream response that is a failure:
    the advisory of the status, as the error table lists them. *)
Definition advisory_for {D : Type} (r : response D) (res : pyval) : Prop :=
  let s := status_code r in
  (s = 401 ->
   field "error" res = Some (PStr "Authentication failed") /\
   field "message" res = Some (PStr "Invalid API key") /\
   field "help" res <> None) /\
  (s = 429 ->
   field "error" res = Some (PStr "Rate limit exceeded") /\
   field "help" res <> None) /\
  (forall b, s = 202 -> json r = Some b ->
   field "error" res = Some (PStr "Stats computing") /\
   field "message" res =
     Some (PStr ("Stats are still being computed (" ++
                 Py.str (get (jb_percent_calculated b) 0) ++
                 "% complete). Try again in a few seconds.")) /\
   field "help" res <> None) /\
  (forall b, 400 <= s -> s <> 401 -> s <> 429 -> json r = Some b ->
   field "error" res = Some (PStr "API error") /\
   field "message" res =
     Some (PStr ("API error (" ++ Py.str s ++ "): " ++
                 get (jb_error b) (body_text r))) /\
   field "help" res = None) /\
  (s <> 401 -> s <> 429 -> json r = None ->
   field "error" res = Some (PStr "API error") /\
   field "help" res = None).

(** What a tool returns when the transport's answer is [answer]. *)
Definition reported {D : Type} (answer : result (response D)) (res : pyval)
    : Prop :=
  match answer with
  | Ok r => advisory_for r res
  | Raise e => res = Server.format_error e
  end.

End Spec.

(* ================================================================== *)
(** * Sample runs *)
(* ================================================================== *)

Module Sample.

Definition fresh : world := mkworld None [].

Definition it (n : string) (secs pct : Q) : item :=
  mkitem (Some n) (Some (WakaTimeClient.format_seconds secs)) (Some pct)
         (Some secs).

(** Two days: Go at 3600 s then 1800 s, Rust at 3600 s on the second. *)
Definition day1 : day_summary :=
  mkday (Some (mkgrand (Some "1 hr") (Some 3600%Q))) (Some "2024-01-01")
        (Some [it "api" 3000 83.33; it "docs" 600 16.67])
        (Some [it "Go" 3600 100])
        (Some [it "vim" 3600 100])
        None.

Definition day2 : day_summary :=
  mkday (Some (mkgrand (Some "1 hr 30 mins") (Some 5400%Q)))
        (Some "2024-01-02")
        (Some [it "docs" 5000 92.59; it "cli" 400 7.41])
        (Some [it "Go" 1800 33.33; it "Rust" 3600 66.67])
        (Some [it "vim" 5400 100])
        None.

(** One day whose language percent has two decimals. *)
Definition day3 : day_summary :=
  mkday (Some (mkgrand (Some "1 hr") (Some 3600%Q))) (Some "2024-01-03")
        None
        (Some [it "Go" 444.24 12.34; it "Rust" 3155.76 87.66])
        None
        None.

Definition answering {D : Type} (key : option string) (r : response D)
    : environment D :=
  mkenv key (Date.mkdate 2024 1 15) (fun _ => Ok r).

Definition ok {D : Type} (d : D) : response D :=
  mkresponse 200 "" (Some (mkbody None None (Some d))).

Definition env (days : list day_summary) : environment (list day_summary) :=
  answering (Some "waka_0000") (ok days).

Definition no_key_env : environment (list day_summary) :=
  answering None (ok [day1]).

(** A gateway error page: status 502 and a body that is not JSON. *)
Definition bad_gateway : response (list day_summary) :=
  mkresponse 502 "<html>502 Bad Gateway</html>" None.

Definition the_client : client :=
  mkclient WakaTimeClient.default_base_url 30 "waka_0000".

(** The world once the singleton exists, and once one summaries
    request has gone out. *)
Definition ready : world := mkworld (Some the_client) [].

Definition asked (start end_ : string) : world :=
  mkworld (Some the_client)
    [mkrequest "GET"
       "https://api.wakatime.com/api/v1/users/current/summaries" "waka_0000"
       [("start", start); ("end", end_)]].

Definition lang (i : nat) : item :=
  it (Py.str (Z.of_nat i)) (inject_Z (1500 - 100 * Z.of_nat i)) (20 # 3).

Definition fifteen_languages : stats_t :=
  mkstats (Some "last 7 days") (Some "10 hrs") (Some 36000%Q) (Some "1 hr 25 mins")
          (Some 7%Q) (Some 7%Q) None
          (Some (map lang (seq 0 15))) None None None None.

Definition stats_env : environment stats_t :=
  answering (Some "waka_0000") (ok fifteen_languages).

(** Payloads for the other tools. *)
Definition some_projects (n : nat) : list project_t :=
  map (fun i => mkproject (Some (Py.str (Z.of_nat i))) None None None None)
      (seq 0 n).

Definition bar : status_bar_t :=
  mkstatusbar (Some (mkgrand (Some "2 hrs") (Some 7200%Q)))
              (Some [it "Coding" 7000 97.2; it "Debugging" 200 2.8])
              (Some "2024-01-15T10:00:00Z").

Definition all_time : all_time_t :=
  mkalltime (Some "1,234 hrs") (Some 4442400%Q) (Some 5400%Q) (Some true)
            None.

(** What the world is after one request with these parameters. *)
Definition after (path : string) (params : list (string * string)) : world :=
  mkworld (Some the_client)
    [mkrequest "GET" ("https://api.wakatime.com/api/v1" ++ path) "waka_0000"
       params].

End Sample.

(* ================================================================== *)
(** * Theorems *)
(* ================================================================== *)

(** ** Calendar arithmetic *)

Lemma validb_spec (d : Date.date) :
  Date.valid d <->
  1 <= Date.year d <= 9999 /\ 1 <= Date.month d <= 12 /\
  1 <= Date.day d <= Date.days_in_month (Date.year d) (Date.month d).
Proof.
  unfold Date.valid, Date.validb.
  rewrite !andb_true_iff, !Z.leb_le. tauto.
Qed.

Lemma month_cases (m : Z) :
  1 <= m <= 12 ->
  m = 1 \/ m = 2 \/ m = 3 \/ m = 4 \/ m = 5 \/ m = 6 \/
  m = 7 \/ m = 8 \/ m = 9 \/ m = 10 \/ m = 11 \/ m = 12.
Proof. lia. Qed.

Ltac each_month H :=
  apply month_cases in H;
  repeat (destruct H as [H | H]; [subst | ]); [.. | subst].

Lemma days_before_year_succ (y : Z) :
  Date.days_before_year (y + 1) =
  Date.days_before_year y + (if Date.is_leap y then 366 else 365).
Proof.
  unfold Date.days_before_year, Date.is_leap.
  replace (y + 1 - 1) with y by lia.
  destruct (Z.eqb_spec (y mod 4) 0), (Z.eqb_spec (y mod 100) 0),
    (Z.eqb_spec (y mod 400) 0); simpl;
    Z.div_mod_to_equations; lia.
Qed.

Lemma days_before_year_mono (y1 y2 : Z) :
  y1 <= y2 -> Date.days_before_year y1 <= Date.days_before_year y2.
Proof.
  unfold Date.days_before_year. intros H.
  Z.div_mod_to_equations. lia.
Qed.

Lemma month_end (y m d : Z) :
  1 <= m <= 12 -> d <= Date.days_in_month y m ->
  Date.days_before_month y m + d <= if Date.is_leap y then 366 else 365.
Proof.
  intros Hm Hd. each_month Hm; unfold Date.days_before_month, Date.days_in_month in *;
    destruct (Date.is_leap y); lia.
Qed.

Lemma month_step (y m1 m2 d : Z) :
  1 <= m1 -> m1 < m2 -> m2 <= 12 -> d <= Date.days_in_month y m1 ->
  Date.days_before_month y m1 + d <= Date.days_before_month y m2.
Proof.
  intros H1 H12 H2 Hd.
  assert (Hm1 : 1 <= m1 <= 12) by lia.
  assert (Hm2 : 1 <= m2 <= 12) by lia.
  each_month Hm1; each_month Hm2; try lia;
    unfold Date.days_before_month, Date.days_in_month in *;
    destruct (Date.is_leap y); lia.
Qed.

Lemma days_before_month_nonneg (y m : Z) : 0 <= Date.days_before_month y m.
Proof.
  unfold Date.days_before_month.
  destruct (Date.is_leap y), m as [|p|p]; try lia;
  repeat (destruct p as [p|p|]; try lia).
Qed.

Lemma toordinal_increasing (a b : Date.date) :
  Date.valid a -> Date.valid b -> Date.ltb a b = true ->
  Date.toordinal a < Date.toordinal b.
Proof.
  rewrite !validb_spec. intros (Hay & Ham & Had) (Hby & Hbm & Hbd).
  unfold Date.ltb, Date.toordinal.
  repeat (rewrite orb_true_iff || rewrite andb_true_iff).
  rewrite !Z.ltb_lt, !Z.eqb_eq.
  intros [Hy | [Hy [Hm | [Hm Hd]]]].
  - pose proof (month_end (Date.year a) (Date.month a) (Date.day a) Ham (proj2 Had)).
    pose proof (days_before_year_succ (Date.year a)).
    pose proof (days_before_year_mono (Date.year a + 1) (Date.year b) ltac:(lia)).
    pose proof (days_before_month_nonneg (Date.year b) (Date.month b)).
    destruct (Date.is_leap (Date.year a)); lia.
  - rewrite Hy in *.
    pose proof (month_step (Date.year b) (Date.month a) (Date.month b) (Date.day a)
                  ltac:(lia) Hm ltac:(lia) (proj2 Had)).
    lia.
  - rewrite Hy, Hm. lia.
Qed.

Lemma ltb_true_iff (a b : Date.date) :
  Date.ltb a b = true <->
  Date.year a < Date.year b \/
  (Date.year a = Date.year b /\
   (Date.month a < Date.month b \/
    (Date.month a = Date.month b /\ Date.day a < Date.day b))).
Proof.
  unfold Date.ltb.
  repeat (rewrite orb_true_iff || rewrite andb_true_iff).
  rewrite !Z.ltb_lt, !Z.eqb_eq. reflexivity.
Qed.

Lemma ltb_false_intro (a b : Date.date) :
  Date.year b < Date.year a \/
  (Date.year b = Date.year a /\
   (Date.month b < Date.month a \/
    (Date.month b = Date.month a /\ Date.day b <= Date.day a))) ->
  Date.ltb a b = false.
Proof.
  intros H. apply not_true_iff_false. rewrite ltb_true_iff. lia.
Qed.

Lemma ltb_antisym (a b : Date.date) :
  Date.ltb a b = true -> Date.ltb b a = false /\ Date.eqb a b = false.
Proof.
  rewrite ltb_true_iff. intros H. split.
  - apply ltb_false_intro. lia.
  - unfold Date.eqb. apply not_true_iff_false.
    rewrite !andb_true_iff, !Z.eqb_eq. lia.
Qed.

Lemma ltb_irrefl (a : Date.date) : Date.ltb a a = false.
Proof.
  unfold Date.ltb. rewrite !Z.ltb_irrefl, !Z.eqb_refl. reflexivity.
Qed.

Lemma eqb_refl (a : Date.date) : Date.eqb a a = true.
Proof. unfold Date.eqb. rewrite !Z.eqb_refl. reflexivity. Qed.

Lemma eqb_eq (a b : Date.date) : Date.eqb a b = true <-> a = b.
Proof.
  split; [| intros ->; apply eqb_refl].
  unfold Date.eqb. rewrite !andb_true_iff, !Z.eqb_eq.
  destruct a, b; simpl. intros [[-> ->] ->]. reflexivity.
Qed.

Lemma fromisoformat_valid (s : string) (d : Date.date) :
  Date.fromisoformat s = Some d -> Date.valid d.
Proof.
  unfold Date.fromisoformat.
  repeat match goal with
         | |- context [match ?x with _ => _ end] => destruct x eqn:?; try discriminate
         end.
  intros H; injection H as <-. assumption.
Qed.

Lemma day_before_spec (d y : Date.date) :
  Date.valid d -> Date.day_before d = Some y ->
  Date.valid y /\ Date.toordinal y = Date.toordinal d - 1 /\
  Date.ltb d y = false.
Proof.
  rewrite !validb_spec. intros (Hy & Hm & Hd). unfold Date.day_before.
  destruct (Z.ltb_spec 1 (Date.day d)).
  { intros E; injection E as <-. split; [| split].
    - simpl. lia.
    - unfold Date.toordinal. simpl. lia.
    - apply ltb_false_intro. simpl. lia. }
  destruct (Z.ltb_spec 1 (Date.month d)).
  { intros E; injection E as <-.
    assert (Hd1 : Date.day d = 1) by lia.
    split; [| split].
    - simpl. assert (Hm' : 1 <= Date.month d - 1 <= 12) by lia.
      split; [lia | split; [lia |]].
      each_month Hm'; rewrite ?Hm'; unfold Date.days_in_month;
        try destruct (Date.is_leap (Date.year d)); lia.
    - unfold Date.toordinal. simpl. rewrite Hd1.
      assert (Hm' := Hm).
      each_month Hm'; try lia; rewrite ?Hm';
        unfold Date.days_before_month, Date.days_in_month; simpl;
        destruct (Date.is_leap (Date.year d)); lia.
    - apply ltb_false_intro. simpl. lia. }
  destruct (Z.ltb_spec 1 (Date.year d)); [| discriminate].
  intros E; injection E as <-.
  assert (Hd1 : Date.day d = 1) by lia.
  assert (Hm1 : Date.month d = 1) by lia.
  split; [| split].
  - simpl. unfold Date.days_in_month. lia.
  - unfold Date.toordinal. simpl. rewrite Hd1, Hm1.
    pose proof (days_before_year_succ (Date.year d - 1)) as S.
    replace (Date.year d - 1 + 1) with (Date.year d) in S by lia.
    unfold Date.days_before_month.
    destruct (Date.is_leap (Date.year d - 1)), (Date.is_leap (Date.year d)); lia.
  - apply ltb_false_intro. simpl. lia.
Qed.

Lemma toordinal_positive (d : Date.date) : Date.valid d -> 1 <= Date.toordinal d.
Proof.
  rewrite validb_spec. intros (Hy & Hm & Hd). unfold Date.toordinal.
  pose proof (days_before_year_mono 1 (Date.year d) ltac:(lia)) as H.
  change (Date.days_before_year 1) with 0 in H.
  pose proof (days_before_month_nonneg (Date.year d) (Date.month d)). lia.
Qed.

Lemma toordinal_injective (a b : Date.date) :
  Date.valid a -> Date.valid b -> Date.toordinal a = Date.toordinal b -> a = b.
Proof.
  intros Ha Hb E.
  destruct (Date.ltb a b) eqn:Hab.
  { pose proof (toordinal_increasing a b Ha Hb Hab). lia. }
  destruct (Date.ltb b a) eqn:Hba.
  { pose proof (toordinal_increasing b a Hb Ha Hba). lia. }
  apply not_true_iff_false in Hab, Hba. rewrite ltb_true_iff in Hab, Hba.
  destruct a, b; simpl in *. f_equal; lia.
Qed.

Lemma day_before_exists (d : Date.date) :
  Date.valid d -> 1 < Date.toordinal d -> exists y, Date.day_before d = Some y.
Proof.
  intros Hv Ho. destruct (Date.day_before d) eqn:E; [eauto |].
  exfalso. revert E. unfold Date.day_before.
  destruct (Z.ltb_spec 1 (Date.day d)); [discriminate |].
  destruct (Z.ltb_spec 1 (Date.month d)); [discriminate |].
  destruct (Z.ltb_spec 1 (Date.year d)); [discriminate |].
  intros _. apply validb_spec in Hv. unfold Date.toordinal in Ho.
  replace (Date.year d) with 1 in Ho by lia.
  replace (Date.month d) with 1 in Ho by lia.
  change (Date.days_before_year 1) with 0 in Ho.
  change (Date.days_before_month 1 1) with 0 in Ho. lia.
Qed.

(** Walking back from [b] one day at a time reaches [a] after exactly
    the difference of the ordinals. *)
Lemma days_back_between (n : nat) :
  forall a b : Date.date,
    Date.valid a -> Date.valid b ->
    Date.toordinal b - Date.toordinal a = Z.of_nat n ->
    Date.days_back n b = Some a.
Proof.
  induction n as [| n IH]; intros a b Ha Hb E.
  - simpl. f_equal. symmetry. apply toordinal_injective; [assumption .. | lia].
  - pose proof (toordinal_positive a Ha).
    destruct (day_before_exists b Hb) as [y Hy]; [lia |].
    destruct (day_before_spec b y Hb Hy) as (Hvy & Hoy & _).
    simpl. rewrite Hy. apply IH; [assumption .. | lia].
Qed.

Lemma digit_val_digit (k : Z) :
  0 <= k <= 9 -> Date.digit_val (Date.digit k) = Some k.
Proof.
  intros H.
  assert (C : k = 0 \/ k = 1 \/ k = 2 \/ k = 3 \/ k = 4 \/ k = 5 \/ k = 6 \/
              k = 7 \/ k = 8 \/ k = 9) by lia.
  repeat (destruct C as [-> | C]; [reflexivity |]). subst. reflexivity.
Qed.

(** A valid date is read back from its ISO form. *)
Lemma fromisoformat_isoformat (d : Date.date) :
  Date.valid d -> Date.fromisoformat (Date.isoformat d) = Some d.
Proof.
  intros Hv. pose proof Hv as Hb. apply validb_spec in Hb.
  destruct Hb as (Hy & Hm & Hd).
  assert (Hd31 : Date.day d <= 31).
  { assert (Hm' := Hm). destruct d as [y m dd]. simpl in *.
    each_month Hm'; unfold Date.days_in_month in Hd;
      try destruct (Date.is_leap y); lia. }
  unfold Date.fromisoformat, Date.isoformat, Date.pad4, Date.pad2.
  cbn [String.append list_ascii_of_string].
  unfold Date.number. cbn [fold_left].
  rewrite !digit_val_digit by (Z.div_mod_to_equations; lia).
  replace (10 * (10 * (10 * (10 * 0 + Date.year d / 1000) +
             Date.year d / 100 mod 10) + Date.year d mod 100 / 10) +
           Date.year d mod 100 mod 10) with (Date.year d)
    by (Z.div_mod_to_equations; lia).
  replace (10 * (10 * 0 + Date.month d / 10) + Date.month d mod 10)
    with (Date.month d) by (Z.div_mod_to_equations; lia).
  replace (10 * (10 * 0 + Date.day d / 10) + Date.day d mod 10)
    with (Date.day d) by (Z.div_mod_to_equations; lia).
  destruct d as [y m dd]. cbn [Date.year Date.month Date.day].
  unfold Date.valid in Hv. rewrite Hv. reflexivity.
Qed.

(** ** Arithmetic of the Python primitives *)

Lemma ltb_lt (x y : Q) : Py.ltb x y = true <-> (x < y)%Q.
Proof.
  unfold Py.ltb. rewrite negb_true_iff, <- not_true_iff_false, Qle_bool_iff.
  split; [apply Qnot_le_lt | apply Qlt_not_le].
Qed.

Lemma ltb_ge (x y : Q) : Py.ltb x y = false <-> (y <= x)%Q.
Proof.
  unfold Py.ltb. rewrite negb_false_iff. apply Qle_bool_iff.
Qed.

Lemma int_floor (x : Q) : (0 <= x)%Q -> Py.int x = Qfloor x.
Proof.
  destruct x as [a b]. unfold Qle, Py.int. simpl. intros Ha.
  apply Z.quot_div_nonneg; lia.
Qed.

Lemma floordiv_pos (x : Q) (p : positive) :
  Py.floordiv x (inject_Z (Zpos p)) = Qnum x / (Zpos (Qden x) * Zpos p).
Proof.
  destruct x as [a b]. unfold Py.floordiv. simpl.
  rewrite Z.mul_1_r. reflexivity.
Qed.

Lemma floor_div_pos (x : Q) (p : positive) :
  Qfloor (x / inject_Z (Zpos p)) = Qnum x / (Zpos (Qden x) * Zpos p).
Proof. exact (floordiv_pos x p). Qed.

(** ** format_seconds *)

(** C3: for a non-negative number of seconds [n], [format_seconds]
    prints whole seconds below a minute, whole minutes below an hour,
    hours with the minutes left over (left out when zero) below a day,
    and days with the hours left over (left out when zero) from a day
    on; every quantity is a floor, so 60, 3600, 3661, 86400 and 90000
    seconds print as "1 mins", "1 hrs", "1 hrs 1 mins", "1 days" and
    "1 days 1 hrs". *)
Theorem format_seconds_units (n : Q) :
  (0 <= n)%Q ->
  ((n < 60)%Q ->
     WakaTimeClient.format_seconds n = Py.str (Qfloor n) ++ " secs") /\
  ((60 <= n)%Q -> (n < 3600)%Q ->
     WakaTimeClient.format_seconds n = Py.str (Qfloor (n / 60)) ++ " mins") /\
  ((3600 <= n)%Q -> (n < 86400)%Q ->
     let H := Qfloor (n / 3600) in
     let M := Qfloor (n / 60) mod 60 in
     WakaTimeClient.format_seconds n =
       if M =? 0 then Py.str H ++ " hrs"
       else Py.str H ++ " hrs " ++ Py.str M ++ " mins") /\
  ((86400 <= n)%Q ->
     let D := Qfloor (n / 86400) in
     let H := Qfloor (n / 3600) mod 24 in
     WakaTimeClient.format_seconds n =
       if H =? 0 then Py.str D ++ " days"
       else Py.str D ++ " days " ++ Py.str H ++ " hrs") /\
  WakaTimeClient.format_seconds 60 = "1 mins" /\
  WakaTimeClient.format_seconds 3600 = "1 hrs" /\
  WakaTimeClient.format_seconds 3661 = "1 hrs 1 mins" /\
  WakaTimeClient.format_seconds 86400 = "1 days" /\
  WakaTimeClient.format_seconds 90000 = "1 days 1 hrs".
Proof.
  intros Hn.
  assert (Hm : Py.floordiv n 60 = Qnum n / (Zpos (Qden n) * 60))
    by exact (floordiv_pos n 60).
  assert (Hh : Py.floordiv n 60 / 60 = Qnum n / (Zpos (Qden n) * 3600)).
  { rewrite Hm, Z.div_div by lia. f_equal. lia. }
  assert (Hd : Py.floordiv n 60 / 60 / 24 = Qnum n / (Zpos (Qden n) * 86400)).
  { rewrite Hh, Z.div_div by lia. f_equal. lia. }
  pose proof (floor_div_pos n 60) as F60.
  pose proof (floor_div_pos n 3600) as F3600.
  pose proof (floor_div_pos n 86400) as F86400.
  change (inject_Z 60) with 60%Q in F60.
  change (inject_Z 3600) with 3600%Q in F3600.
  change (inject_Z 86400) with 86400%Q in F86400.
  repeat split; try reflexivity.
  - intros Hlt. unfold WakaTimeClient.format_seconds.
    apply ltb_lt in Hlt. rewrite Hlt, int_floor by assumption. reflexivity.
  - intros Hge Hlt. unfold WakaTimeClient.format_seconds.
    apply ltb_ge in Hge. rewrite Hge.
    replace (Py.floordiv n 60 <? 60) with true.
    + rewrite F60, Hm. reflexivity.
    + symmetry. apply Z.ltb_lt. rewrite Hm.
      destruct n as [a b]. unfold Qlt in Hlt. simpl in *.
      apply Z.div_lt_upper_bound; lia.
  - intros Hge Hlt H M. subst H M. unfold WakaTimeClient.format_seconds.
    assert (G60 : (60 <= n)%Q) by (eapply Qle_trans; [|exact Hge]; discriminate).
    apply ltb_ge in G60. rewrite G60.
    replace (Py.floordiv n 60 <? 60) with false.
    + replace (Py.floordiv n 60 / 60 <? 24) with true.
      * rewrite Hh, F3600, F60, Hm. reflexivity.
      * symmetry. apply Z.ltb_lt. rewrite Hh.
        destruct n as [a b]. unfold Qlt in Hlt. simpl in *.
        apply Z.div_lt_upper_bound; lia.
    + symmetry. apply Z.ltb_ge. rewrite Hm.
      destruct n as [a b]. unfold Qle in Hge. simpl in *.
      apply Z.div_le_lower_bound; lia.
  - intros Hge D H. subst D H. unfold WakaTimeClient.format_seconds.
    assert (G60 : (60 <= n)%Q) by (eapply Qle_trans; [|exact Hge]; discriminate).
    apply ltb_ge in G60. rewrite G60.
    replace (Py.floordiv n 60 <? 60) with false.
    + replace (Py.floordiv n 60 / 60 <? 24) with false.
      * rewrite Hd, Hh, F3600, F86400. reflexivity.
      * symmetry. apply Z.ltb_ge. rewrite Hh.
        destruct n as [a b]. unfold Qle in Hge. simpl in *.
        apply Z.div_le_lower_bound; lia.
    + symmetry. apply Z.ltb_ge. rewrite Hm.
      destruct n as [a b]. unfold Qle in Hge. simpl in *.
      apply Z.div_le_lower_bound; lia.
Qed.

Lemma format_seconds_units_witness :
  (0 <= 5400)%Q /\
  WakaTimeClient.format_seconds 5400 = "1 hrs 30 mins".
Proof.
  split; [discriminate |].
  destruct (format_seconds_units 5400) as (_ & _ & H & _); [discriminate |].
  apply H; [discriminate | reflexivity].
Defined.

(** * The multi-day aggregation *)

Import Server.

(** ** Totals as insertion-ordered mappings *)

Lemma lookup_dict_set (k k' : string) (v : Q) (l : list (string * Q)) :
  lookup k' (dict_set k v l) = if String.eqb k' k then Some v else lookup k' l.
Proof.
  induction l as [| [k0 v0] l IH]; simpl.
  - destruct (String.eqb_spec k' k); reflexivity.
  - destruct (String.eqb_spec k k0) as [-> | Hne]; simpl.
    + destruct (String.eqb_spec k' k0); reflexivity.
    + rewrite IH. destruct (String.eqb_spec k' k0) as [-> | Hne'].
      * destruct (String.eqb_spec k0 k); [congruence | reflexivity].
      * reflexivity.
Qed.

Lemma keys_dict_set (k : string) (v : Q) (l : list (string * Q)) (n : string) :
  In n (map fst (dict_set k v l)) <-> n = k \/ In n (map fst l).
Proof.
  induction l as [| [k0 v0] l IH]; simpl.
  - intuition congruence.
  - destruct (String.eqb_spec k k0) as [-> | Hne]; simpl.
    + intuition congruence.
    + rewrite IH. intuition congruence.
Qed.

Lemma NoDup_dict_set (k : string) (v : Q) (l : list (string * Q)) :
  NoDup (map fst l) -> NoDup (map fst (dict_set k v l)).
Proof.
  induction l as [| [k0 v0] l IH]; simpl; intros H.
  - constructor; [intros [] | constructor].
  - inversion H as [| ? ? Hnotin Hnd]; subst.
    destruct (String.eqb_spec k k0) as [-> | Hne]; simpl.
    + constructor; assumption.
    + constructor; [| apply IH; assumption].
      rewrite keys_dict_set. intros [-> | Hin]; [congruence | contradiction].
Qed.

Lemma lookup_In (l : list (string * Q)) (n : string) (s : Q) :
  NoDup (map fst l) -> In (n, s) l -> lookup n l = Some s.
Proof.
  induction l as [| [k0 v0] l IH]; simpl; intros Hnd Hin; [contradiction |].
  inversion Hnd as [| ? ? Hnotin Hnd']; subst.
  destruct Hin as [E | Hin].
  - injection E as -> ->. rewrite String.eqb_refl. reflexivity.
  - destruct (String.eqb_spec n k0) as [-> | Hne].
    + exfalso. apply Hnotin. apply (in_map fst) in Hin. exact Hin.
    + apply IH; assumption.
Qed.

Lemma name_seconds_cons (n : string) (x : item) (xs : list item) :
  Spec.name_seconds n (x :: xs) =
  if String.eqb (Spec.item_name x) n
  then (Spec.item_seconds x + Spec.name_seconds n xs)%Q
  else Spec.name_seconds n xs.
Proof.
  unfold Spec.name_seconds. simpl.
  destruct (String.eqb (Spec.item_name x) n); reflexivity.
Qed.

Lemma accumulate_spec (xs : list item) :
  forall totals : list (string * Q),
    NoDup (map fst totals) ->
    NoDup (map fst (accumulate totals xs)) /\
    (forall n, In n (map fst (accumulate totals xs)) <->
               In n (map fst totals) \/
               exists x, In x xs /\ Spec.item_name x = n) /\
    (forall n, (get (lookup n (accumulate totals xs)) 0 ==
                get (lookup n totals) 0 + Spec.name_seconds n xs)%Q).
Proof.
  induction xs as [| x xs IH]; intros totals Hnd.
  - simpl. split; [assumption | split].
    + intros n. split; [auto | intros [H | (x & [] & _)]; exact H].
    + intros n. unfold Spec.name_seconds. simpl. ring.
  - unfold accumulate. simpl. fold (Spec.item_name x). fold (Spec.item_seconds x).
    set (t1 := dict_set (Spec.item_name x) _ totals).
    fold (accumulate t1 xs).
    destruct (IH t1) as (N & K & V); [apply NoDup_dict_set; assumption |].
    split; [exact N | split].
    + intros n. rewrite K. unfold t1. rewrite keys_dict_set. split.
      * intros [[-> | H] | (y & Hy & E)]; eauto.
      * intros [H | (y & [-> | Hy] & E)]; eauto.
    + intros n. rewrite V, name_seconds_cons. unfold t1.
      rewrite lookup_dict_set, (String.eqb_sym n).
      destruct (String.eqb_spec (Spec.item_name x) n) as [-> | Hne]; simpl; ring.
Qed.

Lemma accumulate_app (totals : list (string * Q)) (xs ys : list item) :
  accumulate totals (xs ++ ys)%list = accumulate (accumulate totals xs) ys.
Proof. apply fold_left_app. Qed.

(** ** The stable descending sort *)

Lemma insert_desc_perm (x : string * Q) (l : list (string * Q)) :
  Permutation (insert_desc x l) (x :: l).
Proof.
  induction l as [| y l IH]; simpl; [reflexivity |].
  destruct (Py.ltb (snd x) (snd y)); [| reflexivity].
  rewrite IH. apply perm_swap.
Qed.

Lemma sorted_desc_perm (l : list (string * Q)) : Permutation (sorted_desc l) l.
Proof.
  induction l as [| x l IH]; simpl; [reflexivity |].
  rewrite insert_desc_perm. constructor. exact IH.
Qed.

Lemma insert_desc_sorted (x : string * Q) (l : list (string * Q)) :
  StronglySorted Spec.descending l ->
  StronglySorted Spec.descending (insert_desc x l).
Proof.
  induction 1 as [| y l Hs IH Hall]; simpl.
  - constructor; constructor.
  - destruct (Py.ltb (snd x) (snd y)) eqn:E.
    + constructor; [exact IH |].
      apply (Permutation_Forall (Permutation_sym (insert_desc_perm x l))).
      constructor; [| exact Hall].
      apply ltb_lt in E. unfold Spec.descending. apply Qlt_le_weak, E.
    + apply ltb_ge in E.
      constructor; [constructor; assumption |].
      constructor; [exact E |].
      eapply Forall_impl; [| exact Hall].
      intros z Hz. unfold Spec.descending in *. eapply Qle_trans; eassumption.
Qed.

Lemma sorted_desc_sorted (l : list (string * Q)) :
  StronglySorted Spec.descending (sorted_desc l).
Proof.
  induction l as [| x l IH]; simpl; [constructor |].
  apply insert_desc_sorted, IH.
Qed.

(** ** The aggregation loop *)

Lemma Qsum_app (l1 l2 : list Q) :
  (Spec.Qsum (l1 ++ l2) == Spec.Qsum l1 + Spec.Qsum l2)%Q.
Proof.
  induction l1 as [| a l1 IH]; simpl; [ring | rewrite IH; ring].
Qed.

Lemma aggregate_from (days : list day_summary) :
  forall acc : totals_t,
    let t := fold_left add_day days acc in
    (total t == total acc + Spec.grand_seconds days)%Q /\
    project_totals t =
      accumulate (project_totals acc) (Spec.entries projects days) /\
    language_totals t =
      accumulate (language_totals acc) (Spec.entries languages days) /\
    editor_totals t =
      accumulate (editor_totals acc) (Spec.entries editors days) /\
    category_totals t =
      accumulate (category_totals acc) (Spec.entries categories days).
Proof.
  induction days as [| d days IH]; intros acc; simpl.
  - repeat split. unfold Spec.grand_seconds. simpl. ring.
  - destruct (IH (add_day acc d)) as (T & P & L & E & C).
    unfold Spec.entries in *. simpl. rewrite !accumulate_app.
    repeat split; try assumption.
    rewrite T. unfold Spec.grand_seconds. simpl. ring.
Qed.

Lemma ranking_of_totals (xs : list item) :
  Spec.ranking xs (sorted_desc (accumulate [] xs)).
Proof.
  destruct (accumulate_spec xs []) as (N & K & V); [constructor |].
  pose proof (sorted_desc_perm (accumulate [] xs)) as P.
  repeat split.
  - eapply Permutation_NoDup; [| exact N].
    apply Permutation_map. symmetry. exact P.
  - intros Hin. apply (Permutation_in _ (Permutation_map fst P)) in Hin.
    apply K in Hin. destruct Hin as [[] | H]. exact H.
  - intros H.
    apply (Permutation_in _ (Permutation_map fst (Permutation_sym P))).
    apply K. right. exact H.
  - intros n s Hin. apply (Permutation_in _ P) in Hin.
    apply (lookup_In _ _ _ N) in Hin.
    specialize (V n). rewrite Hin in V. simpl in V. rewrite V. ring.
  - apply sorted_desc_sorted.
Qed.

(** ** Rounding *)

Lemma round_half_even_comp (x y : Q) :
  (x == y)%Q -> Py.round_half_even x = Py.round_half_even y.
Proof.
  intros E. unfold Py.round_half_even.
  rewrite (Qfloor_comp _ _ E).
  assert (C : (x - inject_Z (Qfloor y) ?= 1 # 2)%Q =
              (y - inject_Z (Qfloor y) ?= 1 # 2)%Q)
    by (apply Qcompare_comp; [rewrite E |]; reflexivity).
  rewrite C. reflexivity.
Qed.

Lemma round1_comp (x y : Q) : (x == y)%Q -> Py.round1 x = Py.round1 y.
Proof.
  intros E. unfold Py.round1. f_equal.
  apply round_half_even_comp. rewrite E. reflexivity.
Qed.

Lemma breakdown_entry_spec (total_seconds : Q) (x : string * Q) :
  breakdown_entry total_seconds x = Spec.entry total_seconds x.
Proof.
  destruct x as [n s]. unfold breakdown_entry, Spec.entry, Spec.percent_of.
  simpl. destruct (Py.ltb 0 total_seconds); [| reflexivity].
  rewrite (round1_comp (s / total_seconds * 100) (100 * s / total_seconds));
    [reflexivity |].
  unfold Qdiv. ring.
Qed.

(** * get_summary *)

Section Summary.

Variable env : environment (list day_summary).
Variables start_date end_date project : option string.

Lemma get_summary_upstream (w w1 w2 : world) (c : client)
    (yesterday : Date.date) (body : json_body (list day_summary)) :
  get_client env w = (Ok c, w1) ->
  Date.day_before (today env) = Some yesterday ->
  let start := get (parse_date start_date) yesterday in
  let end_ := get (parse_date end_date) (today env) in
  Date.ltb end_ start = false ->
  WakaTimeClient.get_summaries env c (Some start) (Some end_) project w1 =
    (Ok body, w2) ->
  get_summary env start_date end_date project w =
    (Ok match get (jb_data body) [] with
        | [] =>
            PDict [("start_date", PStr (Date.isoformat start));
                   ("end_date", PStr (Date.isoformat end_));
                   ("total_time", PStr "0 mins");
                   ("total_seconds", PNum 0);
                   ("message",
                      PStr "No coding activity recorded for this period.")]
        | summary :: rest =>
            let result := if negb (Date.eqb start end_)
                          then range_result start end_ (summary :: rest)
                          else single_result start summary in
            PDict (if Py.truthy project
                   then app result [("project_filter", PStr (get project ""))]
                   else result)
        end, w2).
Proof.
  intros Hc Hy start end_ Hlt Hs.
  unfold get_summary, try_except, bind. rewrite Hc, Hy. unfold ret at 1.
  fold start end_. rewrite Hlt, Hs.
  destruct (get (jb_data body) []); reflexivity.
Qed.

Lemma get_client_sent (w w1 : world) (r : result client) :
  get_client env w = (r, w1) -> sent w1 = sent w.
Proof.
  unfold get_client. destruct (the_client w).
  - intros E; injection E as <- <-. reflexivity.
  - destruct (WakaTimeClient.__init__ _ _ _ _);
      intros E; injection E as <- <-; reflexivity.
Qed.

(** C7: when the summaries response carries an empty data list, the
    tool returns the zero-total mapping with the two dates and the
    informational message; the mapping has no [error] and no [help] key. *)
Theorem empty_period_is_not_an_error (w w1 w2 : world) (c : client)
    (yesterday : Date.date) (body : json_body (list day_summary)) :
  get_client env w = (Ok c, w1) ->
  Date.day_before (today env) = Some yesterday ->
  let start := get (parse_date start_date) yesterday in
  let end_ := get (parse_date end_date) (today env) in
  Date.ltb end_ start = false ->
  WakaTimeClient.get_summaries env c (Some start) (Some end_) project w1 =
    (Ok body, w2) ->
  jb_data body = Some [] ->
  exists res,
    get_summary env start_date end_date project w = (Ok res, w2) /\
    res = PDict [("start_date", PStr (Date.isoformat start));
                 ("end_date", PStr (Date.isoformat end_));
                 ("total_time", PStr "0 mins");
                 ("total_seconds", PNum 0);
                 ("message",
                    PStr "No coding activity recorded for this period.")] /\
    field "error" res = None /\ field "help" res = None.
Proof.
  intros Hc Hy start end_ Hlt Hs Hd.
  eexists. split; [| split; [reflexivity | split; reflexivity]].
  rewrite (get_summary_upstream w w1 w2 c yesterday body Hc Hy Hlt Hs).
  rewrite Hd. reflexivity.
Qed.

(** C4, as the code has it: a call whose end date is before its start
    date sends no request; once the client is available it returns the
    two-field validation mapping, and when the client cannot be built
    it returns the advisory of that failure, because [get_client] runs
    before the dates are looked at. *)
Theorem end_before_start_is_refused (w : world) (yesterday : Date.date) :
  Date.day_before (today env) = Some yesterday ->
  let start := get (parse_date start_date) yesterday in
  let end_ := get (parse_date end_date) (today env) in
  Date.ltb end_ start = true ->
  sent (snd (get_summary env start_date end_date project w)) = sent w /\
  (forall c w1,
      get_client env w = (Ok c, w1) ->
      get_summary env start_date end_date project w =
        (Ok (PDict [("error", PStr "Invalid date range");
                    ("message",
                       PStr "end_date cannot be before start_date")]),
         w1)) /\
  (forall e w1,
      get_client env w = (Raise e, w1) ->
      get_summary env start_date end_date project w =
        (Ok (format_error e), w1)).
Proof.
  intros Hy start end_ Hlt.
  assert (Hok : forall c w1,
             get_client env w = (Ok c, w1) ->
             get_summary env start_date end_date project w =
               (Ok (PDict [("error", PStr "Invalid date range");
                           ("message",
                              PStr "end_date cannot be before start_date")]),
                w1)).
  { intros c w1 Hc. unfold get_summary, try_except, bind.
    rewrite Hc, Hy. unfold ret at 1. fold start end_. rewrite Hlt.
    reflexivity. }
  assert (Hno : forall e w1,
             get_client env w = (Raise e, w1) ->
             get_summary env start_date end_date project w =
               (Ok (format_error e), w1)).
  { intros e w1 Hc. unfold get_summary, try_except, bind. rewrite Hc.
    reflexivity. }
  split; [| split; assumption].
  destruct (get_client env w) as [[c | e] w1] eqn:Hc.
  - rewrite (Hok c w1 eq_refl). exact (get_client_sent _ _ _ Hc).
  - rewrite (Hno e w1 eq_refl). exact (get_client_sent _ _ _ Hc).
Qed.

Lemma parse_date_valid (s : option string) (d : Date.date) :
  Date.valid d -> Date.valid (get (parse_date s) d).
Proof.
  intros Hd. unfold parse_date.
  destruct (negb (Py.truthy s)); [exact Hd |].
  destruct (Date.fromisoformat (get s "")) eqn:E; [| exact Hd].
  exact (fromisoformat_valid _ _ E).
Qed.

Lemma field_with_filter (k : string) (result : list (string * pyval))
    (v : pyval) :
  lookup k result = Some v ->
  field k (PDict (if Py.truthy project
                  then app result [("project_filter", PStr (get project ""))]
                  else result)) = Some v.
Proof.
  intros H. destruct (Py.truthy project); simpl; [| exact H].
  induction result as [| [k0 v0] result IH]; simpl in *; [discriminate |].
  destruct (String.eqb k k0); [exact H | apply IH, H].
Qed.

Lemma format_breakdown_spec (total_seconds : Q) (totals : list (string * Q))
    (limit : nat) :
  format_breakdown total_seconds totals limit =
  map (Spec.entry total_seconds) (firstn limit (sorted_desc totals)).
Proof.
  unfold format_breakdown. apply map_ext. apply breakdown_entry_spec.
Qed.



End Summary.

Lemma parse_date_malformed (s : string) :
  Date.fromisoformat s = None -> parse_date (Some s) = None.
Proof.
  intros H. unfold parse_date. destruct (Py.truthy (Some s)); [exact H | reflexivity].
Qed.

Lemma get_summary_dates (env : environment (list day_summary))
    (s1 s2 e1 e2 project : option string) (w : world) :
  parse_date s1 = parse_date s2 -> parse_date e1 = parse_date e2 ->
  get_summary env s1 e1 project w = get_summary env s2 e2 project w.
Proof.
  intros Hs He. unfold get_summary. rewrite Hs, He. reflexivity.
Qed.


(** * Reshaping without aggregation *)

Lemma reshape_shaped (limit : nat) (with_seconds : bool) (upstream : list item) :
  Spec.shaped limit with_seconds upstream
    (map (reshape with_seconds) (firstn limit upstream)).
Proof.
  split.
  - rewrite length_map. apply length_firstn.
  - intros i x Hi Hx. exists (reshape with_seconds x). split.
    + rewrite nth_error_map, nth_error_firstn.
      apply PeanoNat.Nat.ltb_lt in Hi. rewrite Hi, Hx. reflexivity.
    + unfold reshape. destruct with_seconds; repeat split; reflexivity.
Qed.

Section SingleDay.

Variable env : environment (list day_summary).
Variables start_date end_date project : option string.

(** C6, as the code has it: when start equals end and a summary came
    back, the result is the first summary reshaped: its date and grand
    total, and for each breakdown the first 10 (projects, languages) or
    5 (editors, categories) entries in upstream order, each percent
    being the upstream percent rounded to one decimal; the result has
    none of the aggregation keys. *)
Theorem single_day_summary (w w1 w2 : world) (c : client)
    (yesterday : Date.date) (body : json_body (list day_summary))
    (day : day_summary) (rest : list day_summary) :
  get_client env w = (Ok c, w1) ->
  Date.day_before (today env) = Some yesterday ->
  let start := get (parse_date start_date) yesterday in
  let end_ := get (parse_date end_date) (today env) in
  start = end_ ->
  WakaTimeClient.get_summaries env c (Some start) (Some end_) project w1 =
    (Ok body, w2) ->
  jb_data body = Some (day :: rest) ->
  let grand := get (grand_total day) empty_grand in
  exists res ps ls es cs,
    get_summary env start_date end_date project w = (Ok res, w2) /\
    field "date" res =
      Some (PStr (get (range_date day) (Date.isoformat start))) /\
    field "total_time" res = Some (PStr (get (gt_text grand) "0 mins")) /\
    field "total_seconds" res = Some (PNum (get (gt_total_seconds grand) 0%Q)) /\
    field "projects" res = Some (PList ps) /\
    Spec.shaped 10 true (get (projects day) []) ps /\
    field "languages" res = Some (PList ls) /\
    Spec.shaped 10 false (get (languages day) []) ls /\
    field "editors" res = Some (PList es) /\
    Spec.shaped 5 false (get (editors day) []) es /\
    field "categories" res = Some (PList cs) /\
    Spec.shaped 5 false (get (categories day) []) cs /\
    field "num_days" res = None /\
    field "daily_average" res = None.
Proof.
  intros Hc Hy start end_ Heq Hs Hd grand.
  assert (Hge : Date.ltb end_ start = false)
    by (rewrite Heq; apply ltb_irrefl).
  pose proof (get_summary_upstream env start_date end_date project
                w w1 w2 c yesterday body Hc Hy Hge Hs) as R.
  rewrite Hd in R. cbn [get] in R. fold start end_ in R.
  replace (Date.eqb start end_) with true in R
    by (symmetry; apply eqb_eq; exact Heq).
  cbn [negb] in R.
  do 5 eexists. split; [exact R |].
  repeat split;
    try (apply field_with_filter; reflexivity);
    try apply reshape_shaped;
    destruct (Py.truthy project); reflexivity.
Qed.

End SingleDay.

(** * get_coding_stats *)

(** C9: a successful [get_coding_stats] returns, for each breakdown,
    the first entries in the order received (10 for languages and
    projects, 5 for editors, operating systems and categories), each
    percent being the upstream percent rounded to one decimal; of 15
    upstream languages the first 10 come back. *)
Theorem coding_stats_top_entries (env : environment stats_t)
    (range : StatsRange) (w w1 w2 : world) (c : client)
    (data : option stats_t) :
  get_client env w = (Ok c, w1) ->
  WakaTimeClient.get_stats env c (range_name range) w1 = (Ok data, w2) ->
  let stats := get data empty_stats in
  exists res ls ps es os cs,
    get_coding_stats env range w = (Ok res, w2) /\
    field "languages" res = Some (PList ls) /\
    Spec.shaped 10 true (get (st_languages stats) []) ls /\
    field "projects" res = Some (PList ps) /\
    Spec.shaped 10 true (get (st_projects stats) []) ps /\
    field "editors" res = Some (PList es) /\
    Spec.shaped 5 false (get (st_editors stats) []) es /\
    field "operating_systems" res = Some (PList os) /\
    Spec.shaped 5 false (get (st_operating_systems stats) []) os /\
    field "categories" res = Some (PList cs) /\
    Spec.shaped 5 false (get (st_categories stats) []) cs /\
    (List.length (get (st_languages stats) []) = 15%nat ->
     ls = map (reshape true) (firstn 10 (get (st_languages stats) [])) /\
     List.length ls = 10%nat).
Proof.
  intros Hc Hs stats.
  do 6 eexists. split.
  { unfold get_coding_stats, try_except, bind. rewrite Hc, Hs.
    unfold ret. fold stats. reflexivity. }
  repeat split;
    try (destruct (best_day stats); reflexivity);
    try apply reshape_shaped.
  rewrite length_map, length_firstn, H. reflexivity.
Qed.

(** * The client *)

(** C5: without a usable key (none given and none, or an empty one, in
    the environment, or an empty one given) construction raises
    [WakaTimeAuthError], and [get_client] then leaves the world, and so
    the log of requests, as it was; with a non-empty key construction
    succeeds and the client holds that key. *)
Theorem client_needs_a_key (explicit environ : option string) (url : string)
    (deadline : Q) :
  let key := match explicit with
             | None => environ
             | Some k => Some k
             end in
  (Py.truthy key = false ->
   exists msg,
     WakaTimeClient.__init__ explicit url deadline environ =
       Raise (WakaTimeAuthError msg) /\
     forall (D : Type) (env : environment D) (w : world),
       explicit = None -> environ_key env = environ -> the_client w = None ->
       get_client env w = (Raise (WakaTimeAuthError msg), w)) /\
  (forall k, key = Some k -> k <> "" ->
     WakaTimeClient.__init__ explicit url deadline environ =
       Ok (mkclient url deadline k) /\
     api_key (mkclient url deadline k) = k).
Proof.
  intros key. split.
  - intros Hk. eexists. split.
    + unfold WakaTimeClient.__init__. cbv zeta. fold key. rewrite Hk.
      reflexivity.
    + intros D env w He Henv Hw. unfold get_client. rewrite Hw.
      unfold WakaTimeClient.__init__. cbv zeta. rewrite Henv.
      subst explicit. change (Py.truthy environ = false) in Hk. rewrite Hk.
      reflexivity.
  - intros k Hk Hne. split; [| reflexivity].
    unfold WakaTimeClient.__init__. cbv zeta. fold key. rewrite Hk.
    destruct k; [contradiction | reflexivity].
Qed.

Lemma dispatch_returns {D : Type} (r : response D) (b : json_body D) :
  json r = Some b -> status_code r < 400 -> status_code r <> 202 ->
  WakaTimeClient.dispatch r = Ok b.
Proof.
  intros Hj H1 H2. unfold WakaTimeClient.dispatch. rewrite Hj.
  destruct (Z.eqb_spec (status_code r) 401), (Z.eqb_spec (status_code r) 202),
    (Z.eqb_spec (status_code r) 429), (Z.leb_spec 400 (status_code r));
    try lia; reflexivity.
Qed.

Lemma dispatch_api_error {D : Type} (r : response D) (b : json_body D) :
  json r = Some b ->
  400 <= status_code r -> status_code r <> 401 -> status_code r <> 429 ->
  WakaTimeClient.dispatch r =
    Raise (WakaTimeError
             ("API error (" ++ Py.str (status_code r) ++ "): " ++
              get (jb_error b) (body_text r))).
Proof.
  intros Hj H1 H2 H3. unfold WakaTimeClient.dispatch. rewrite Hj.
  destruct (Z.eqb_spec (status_code r) 401), (Z.eqb_spec (status_code r) 202),
    (Z.eqb_spec (status_code r) 429), (Z.leb_spec 400 (status_code r));
    try lia; reflexivity.
Qed.

Section Request.

Context {D : Type} (env : environment D).
Variables (self : client) (method endpoint : string).
Variable params : list (string * string).


End Request.

(** * The theorems on sample runs *)

(** The specification's example: Go at 3600 s on the first day and
    1800 s on the second accumulates to 5400 s, and its percent is
    taken of the 9000 s total, not from either day's percent. *)
Example go_over_two_days :
  exists res,
    get_summary (Sample.env [Sample.day1; Sample.day2])
      (Some "2024-01-01") (Some "2024-01-02") None Sample.fresh =
      (Ok res, Sample.asked "2024-01-01" "2024-01-02") /\
    field "total_seconds" res = Some (PNum 9000) /\
    field "languages" res =
      Some (PList
              [PDict [("name", PStr "Go"); ("time", PStr "1 hrs 30 mins");
                      ("percent", PNum 60.0); ("total_seconds", PNum 5400)];
               PDict [("name", PStr "Rust"); ("time", PStr "1 hrs");
                      ("percent", PNum 40.0); ("total_seconds", PNum 3600)]]).
Proof. eexists. repeat split. Qed.



Lemma empty_period_is_not_an_error_witness :
  exists res,
    get_summary (Sample.env []) (Some "2024-01-01") (Some "2024-01-02")
      None Sample.fresh =
      (Ok res, Sample.asked "2024-01-01" "2024-01-02") /\
    field "total_seconds" res = Some (PNum 0) /\
    field "total_time" res = Some (PStr "0 mins") /\
    field "error" res = None.
Proof.
  destruct (empty_period_is_not_an_error (Sample.env [])
              (Some "2024-01-01") (Some "2024-01-02") None
              Sample.fresh Sample.ready
              (Sample.asked "2024-01-01" "2024-01-02") Sample.the_client
              (Date.mkdate 2024 1 14) (mkbody None None (Some [])))
    as (res & R & E & N & _); try reflexivity.
  exists res. split; [exact R |]. rewrite E. repeat split.
Defined.

Lemma end_before_start_is_refused_witness :
  sent (snd (get_summary (Sample.env [Sample.day1]) (Some "2024-01-10")
               (Some "2024-01-05") None Sample.fresh)) = [] /\
  get_summary (Sample.env [Sample.day1]) (Some "2024-01-10")
    (Some "2024-01-05") None Sample.fresh =
    (Ok (PDict [("error", PStr "Invalid date range");
                ("message", PStr "end_date cannot be before start_date")]),
     Sample.ready).
Proof.
  destruct (end_before_start_is_refused (Sample.env [Sample.day1])
              (Some "2024-01-10") (Some "2024-01-05") None
              Sample.fresh (Date.mkdate 2024 1 14) eq_refl eq_refl)
    as (S & V & _).
  split; [exact S | apply (V Sample.the_client); reflexivity].
Defined.

(** C4 as stated fails without a key: the spec's own example,
    [get_summary("2024-01-10", "2024-01-05")], has its end date before
    its start date, and with no key configured the answer is the
    authentication advisory, since [get_client] runs first. *)
Lemma end_before_start_without_key :
  Date.ltb (get (parse_date (Some "2024-01-05")) (today Sample.no_key_env))
           (get (parse_date (Some "2024-01-10")) (Date.mkdate 2024 1 14)) =
    true /\
  fst (get_summary Sample.no_key_env (Some "2024-01-10") (Some "2024-01-05")
         None Sample.fresh) <>
    Ok (PDict [("error", PStr "Invalid date range");
               ("message", PStr "end_date cannot be before start_date")]) /\
  exists res,
    fst (get_summary Sample.no_key_env (Some "2024-01-10")
           (Some "2024-01-05") None Sample.fresh) = Ok res /\
    field "error" res = Some (PStr "Authentication failed").
Proof.
  split; [reflexivity |]. split; [discriminate |].
  eexists. split; reflexivity.
Qed.

Lemma single_day_summary_witness :
  exists res ls,
    get_summary (Sample.env [Sample.day3]) (Some "2024-01-03")
      (Some "2024-01-03") None Sample.fresh =
      (Ok res, Sample.asked "2024-01-03" "2024-01-03") /\
    field "languages" res = Some (PList ls) /\
    Spec.shaped 10 false (get (languages Sample.day3) []) ls.
Proof.
  destruct (single_day_summary (Sample.env [Sample.day3])
              (Some "2024-01-03") (Some "2024-01-03") None
              Sample.fresh Sample.ready
              (Sample.asked "2024-01-03" "2024-01-03") Sample.the_client
              (Date.mkdate 2024 1 14)
              (mkbody None None (Some [Sample.day3])) Sample.day3 [])
    as (res & ps & ls & es & cs & R & _ & _ & _ & _ & _ & L & S & _);
    try reflexivity.
  exists res, ls. repeat split; assumption || apply S.
Defined.

(** C6 as stated fails on the percent: an upstream 12.34 comes back as
    12.3, rounded to one decimal and not unchanged. *)
Lemma single_day_percent_is_rounded :
  nth_error (get (languages Sample.day3) []) 0 =
    Some (mkitem (Some "Go") (Some "7 mins") (Some 12.34%Q) (Some 444.24%Q)) /\
  exists res rest,
    fst (get_summary (Sample.env [Sample.day3]) (Some "2024-01-03")
           (Some "2024-01-03") None Sample.fresh) = Ok res /\
    field "languages" res =
      Some (PList (PDict [("name", PStr "Go"); ("time", PStr "7 mins");
                          ("percent", PNum 12.3)] :: rest)) /\
    ~ (12.3 == 12.34)%Q.
Proof.
  split; [reflexivity |].
  do 2 eexists. split; [reflexivity |]. split; [reflexivity | discriminate].
Qed.

Lemma coding_stats_top_entries_witness :
  exists res ls,
    get_coding_stats Sample.stats_env last_7_days Sample.fresh =
      (Ok res,
       mkworld (Some Sample.the_client)
         [mkrequest "GET"
            "https://api.wakatime.com/api/v1/users/current/stats/last_7_days"
            "waka_0000" []]) /\
    field "languages" res = Some (PList ls) /\
    ls = map (reshape true) (firstn 10 (map Sample.lang (seq 0 15))) /\
    List.length ls = 10%nat.
Proof.
  destruct (coding_stats_top_entries Sample.stats_env last_7_days
              Sample.fresh Sample.ready
              (mkworld (Some Sample.the_client)
                 [mkrequest "GET"
                    "https://api.wakatime.com/api/v1/users/current/stats/last_7_days"
                    "waka_0000" []])
              Sample.the_client (Some Sample.fifteen_languages))
    as (res & ls & ps & es & os & cs & R & L & _ & _ & _ & _ & _ & _ & _ & _
        & _ & F); try reflexivity.
  exists res, ls. split; [exact R | split; [exact L |]].
  apply F. reflexivity.
Defined.

Lemma client_needs_a_key_witness :
  (exists msg,
     WakaTimeClient.__init__ None WakaTimeClient.default_base_url 30 None =
       Raise (WakaTimeAuthError msg) /\
     get_client (Sample.answering None (Sample.ok tt)) Sample.fresh =
       (Raise (WakaTimeAuthError msg), Sample.fresh)) /\
  WakaTimeClient.__init__ None WakaTimeClient.default_base_url 30
    (Some "waka_0000") = Ok Sample.the_client.
Proof.
  split.
  - destruct (client_needs_a_key None None WakaTimeClient.default_base_url 30)
      as ((msg & I & G) & _); [reflexivity |].
    exists msg. split; [exact I |]. apply G; reflexivity.
  - apply (client_needs_a_key None (Some "waka_0000")
             WakaTimeClient.default_base_url 30); [reflexivity | discriminate].
Defined.




(* ================================================================== *)
(** * Beyond the claims *)
(* ================================================================== *)

(** * How the tools use the world *)

(** ** Counting requests *)

Lemma sends_ret {A : Type} (a : A) : Spec.sends_at_most 0 (ret a).
Proof. intros w. exists []. simpl. rewrite app_nil_r. auto. Qed.

Lemma sends_raise {A : Type} (e : exn) : Spec.sends_at_most 0 (@raise A e).
Proof. intros w. exists []. simpl. rewrite app_nil_r. auto. Qed.

Lemma sends_bind {A B : Type} (n k : nat) (m : M A) (f : A -> M B) :
  Spec.sends_at_most n m -> (forall a, Spec.sends_at_most k (f a)) ->
  Spec.sends_at_most (n + k) (bind m f).
Proof.
  intros Hm Hf w. destruct (Hm w) as (l & El & Ll). unfold bind.
  destruct (m w) as [[a | e] w1]; simpl in *.
  - destruct (Hf a w1) as (l' & El' & Ll'). exists (l ++ l')%list.
    rewrite El', El, app_assoc, length_app. split; [reflexivity | lia].
  - exists l. split; [exact El | lia].
Qed.

Lemma sends_try {A : Type} (n : nat) (m : M A) (h : exn -> A) :
  Spec.sends_at_most n m -> Spec.sends_at_most n (try_except m h).
Proof.
  intros Hm w. destruct (Hm w) as (l & El & Ll). exists l.
  unfold try_except. destruct (m w) as [[a | e] w1]; auto.
Qed.

Lemma sends_more {A : Type} (n k : nat) (m : M A) :
  (n <= k)%nat -> Spec.sends_at_most n m -> Spec.sends_at_most k m.
Proof.
  intros Hle Hm w. destruct (Hm w) as (l & El & Ll). exists l. split; [auto | lia].
Qed.

Lemma sends_get_client {D : Type} (env : environment D) :
  Spec.sends_at_most 0 (get_client env).
Proof.
  intros w. exists []. rewrite app_nil_r. split; [| auto].
  destruct (get_client env w) as [r w1] eqn:E. simpl.
  unfold get_client in E. destruct (the_client w).
  - injection E as <- <-. reflexivity.
  - destruct (WakaTimeClient.__init__ _ _ _ _);
      injection E as <- <-; reflexivity.
Qed.

Lemma request_world {D : Type} (env : environment D) (self : client)
    (method endpoint : string) (params : list (string * string)) (w : world) :
  snd (WakaTimeClient._request env self method endpoint params w) =
  mkworld (the_client w)
    (sent w ++
     [mkrequest method (base_url self ++ endpoint) (api_key self) params])%list.
Proof.
  unfold WakaTimeClient._request. destruct (transport env _); reflexivity.
Qed.

Lemma sends_request {D : Type} (env : environment D) (self : client)
    (method endpoint : string) (params : list (string * string)) :
  Spec.sends_at_most 1 (WakaTimeClient._request env self method endpoint params).
Proof.
  intros w. rewrite request_world. eexists. split; [reflexivity | simpl; lia].
Qed.

Lemma sends_unwrap {D B : Type} (env : environment D) (self : client)
    (endpoint : string) (params : list (string * string))
    (f : json_body D -> B) :
  Spec.sends_at_most 1
    (bind (WakaTimeClient.get_ env self endpoint params) (fun r => ret (f r))).
Proof.
  apply (sends_bind 1 0); [apply sends_request | intros; apply sends_ret].
Qed.

Lemma sends_tool {D A B : Type} (env : environment D)
    (call : client -> M A) (shape : A -> B) (h : exn -> B) :
  (forall c, Spec.sends_at_most 1 (call c)) ->
  Spec.sends_at_most 1
    (try_except
       (bind (get_client env)
          (fun c => bind (call c) (fun a => ret (shape a)))) h).
Proof.
  intros Hc. apply sends_try. apply (sends_bind 0 1); [apply sends_get_client |].
  intros c. apply (sends_bind 1 0); [apply Hc | intros; apply sends_ret].
Qed.

(** X1: a tool call sends at most one request, and keeps the log it
    found as a prefix of the log it leaves. *)
Theorem tools_send_at_most_one_request :
  (forall env range, Spec.sends_at_most 1 (get_coding_stats env range)) /\
  (forall env start_date end_date project,
      Spec.sends_at_most 1 (get_summary env start_date end_date project)) /\
  (forall env project, Spec.sends_at_most 1 (get_all_time env project)) /\
  (forall env, Spec.sends_at_most 1 (get_status_bar env)) /\
  (forall env query, Spec.sends_at_most 1 (list_projects env query)).
Proof.
  split; [| split; [| split; [| split]]].
  - intros env range. unfold get_coding_stats.
    apply (sends_tool env (fun c => WakaTimeClient.get_stats env c _)).
    intros c. apply sends_unwrap.
  - intros env start_date end_date project. unfold get_summary.
    apply sends_try. apply (sends_bind 0 1); [apply sends_get_client |].
    intros c. apply (sends_bind 0 1).
    { destruct (Date.day_before (today env)); [apply sends_ret | apply sends_raise]. }
    intros yesterday.
    destruct (Date.ltb _ _); [apply (sends_more 0); [lia | apply sends_ret] |].
    apply (sends_bind 1 0); [apply sends_request |].
    intros response. destruct (get (jb_data response) []); apply sends_ret.
  - intros env project. unfold get_all_time.
    apply (sends_tool env
             (fun c => WakaTimeClient.get_all_time_since_today env c project)).
    intros c. apply sends_unwrap.
  - intros env. unfold get_status_bar.
    apply (sends_tool env (fun c => WakaTimeClient.get_status_bar env c)).
    intros c. apply sends_unwrap.
  - intros env query. unfold list_projects.
    apply (sends_tool env (fun c => WakaTimeClient.get_projects env c query)).
    intros c. apply sends_unwrap.
Qed.

(** ** The key invariant *)

Lemma maintains_ret {A : Type} (a : A) (Q : A -> Prop) :
  Q a -> Spec.maintains (ret a) Q.
Proof.
  intros Ha w Hw. split; [exact Hw |]. intros a' E. injection E as <-. exact Ha.
Qed.

Lemma maintains_raise {A : Type} (e : exn) (Q : A -> Prop) :
  Spec.maintains (@raise A e) Q.
Proof. intros w Hw. split; [exact Hw | discriminate]. Qed.

Lemma maintains_bind {A B : Type} (m : M A) (f : A -> M B)
    (Q : A -> Prop) (R : B -> Prop) :
  Spec.maintains m Q -> (forall a, Q a -> Spec.maintains (f a) R) ->
  Spec.maintains (bind m f) R.
Proof.
  intros Hm Hf w Hw. destruct (Hm w Hw) as (K & V). unfold bind.
  destruct (m w) as [[a | e] w1]; simpl in *.
  - apply (Hf a (V a eq_refl) w1 K).
  - split; [exact K | discriminate].
Qed.

Lemma maintains_try {A : Type} (m : M A) (h : exn -> A) (Q : A -> Prop) :
  Spec.maintains m Q -> Spec.maintains (try_except m h) (fun _ => True).
Proof.
  intros Hm w Hw. destruct (Hm w Hw) as (K & _). unfold try_except.
  destruct (m w) as [[a | e] w1]; simpl in *; auto.
Qed.

Lemma init_key (explicit environ : option string) (url : string)
    (deadline : Q) (c : client) :
  WakaTimeClient.__init__ explicit url deadline environ = Ok c ->
  api_key c <> "".
Proof.
  unfold WakaTimeClient.__init__.
  destruct explicit as [k |]; [| destruct environ as [k |]];
    try destruct k; simpl; try discriminate;
    intros E; injection E as <-; discriminate.
Qed.

Lemma maintains_get_client {D : Type} (env : environment D) :
  Spec.maintains (get_client env) (fun c => api_key c <> "").
Proof.
  intros w Hw. pose proof (proj2 Hw) as Hs. unfold get_client.
  destruct (the_client w) as [c |] eqn:E.
  - split; [exact Hw |].
    intros a Ha. injection Ha as <-. apply (proj1 Hw). exact E.
  - destruct (WakaTimeClient.__init__ _ _ _ _) as [c | e] eqn:I; simpl.
    + pose proof (init_key _ _ _ _ _ I) as K. split.
      * split; [| exact Hs]. intros c' Hc'. injection Hc' as <-. exact K.
      * intros a Ha. injection Ha as <-. exact K.
    + split; [exact Hw | discriminate].
Qed.

Lemma maintains_request {D : Type} (env : environment D) (self : client)
    (method endpoint : string) (params : list (string * string)) :
  api_key self <> "" ->
  Spec.maintains (WakaTimeClient._request env self method endpoint params)
    (fun _ => True).
Proof.
  intros K w (Hc & Hs). split; [| auto]. rewrite request_world.
  split; [exact Hc |]. simpl. apply Forall_app. split; [exact Hs |].
  constructor; [exact K | constructor].
Qed.

Lemma maintains_tool {D A B : Type} (env : environment D)
    (call : client -> M A) (shape : A -> B) (h : exn -> B) :
  (forall c, api_key c <> "" -> Spec.maintains (call c) (fun _ => True)) ->
  Spec.maintains
    (try_except
       (bind (get_client env)
          (fun c => bind (call c) (fun a => ret (shape a)))) h)
    (fun _ => True).
Proof.
  intros Hc. eapply maintains_try.
  eapply maintains_bind; [apply maintains_get_client |].
  intros c K. eapply maintains_bind; [apply (Hc c K) |].
  intros a _. apply (maintains_ret _ (fun _ => True)). exact I.
Qed.

Lemma maintains_unwrap {D B : Type} (env : environment D) (self : client)
    (endpoint : string) (params : list (string * string))
    (f : json_body D -> B) :
  api_key self <> "" ->
  Spec.maintains
    (bind (WakaTimeClient.get_ env self endpoint params) (fun r => ret (f r)))
    (fun _ => True).
Proof.
  intros K. eapply maintains_bind; [apply (maintains_request env self); exact K |].
  intros a _. apply (maintains_ret _ (fun _ => True)). exact I.
Qed.

(** X2: the tools keep the world keyed: from a world whose client, if
    any, holds a non-empty key and whose sent requests all carried
    one, every tool ends in such a world, so no request ever leaves
    with an empty key. *)
Theorem tools_keep_the_world_keyed (w : world) :
  Spec.keyed w ->
  (forall env range, Spec.keyed (snd (get_coding_stats env range w))) /\
  (forall env start_date end_date project,
      Spec.keyed (snd (get_summary env start_date end_date project w))) /\
  (forall env project, Spec.keyed (snd (get_all_time env project w))) /\
  (forall env, Spec.keyed (snd (get_status_bar env w))) /\
  (forall env query, Spec.keyed (snd (list_projects env query w))).
Proof.
  intros Hw. split; [| split; [| split; [| split]]].
  - intros env range.
    apply (maintains_tool env (fun c => WakaTimeClient.get_stats env c _));
      [| exact Hw].
    intros c K. apply maintains_unwrap, K.
  - intros env start_date end_date project.
    refine (proj1 (_ w Hw)). unfold get_summary.
    eapply maintains_try.
    eapply maintains_bind; [apply maintains_get_client |].
    intros c K.
    eapply (maintains_bind _ _ (fun _ => True)).
    { destruct (Date.day_before (today env));
        [apply maintains_ret; exact I | apply maintains_raise]. }
    intros yesterday _.
    destruct (Date.ltb _ _);
      [apply (maintains_ret _ (fun _ => True)); exact I |].
    eapply maintains_bind; [apply (maintains_request env c); exact K |].
    intros response _.
    destruct (get (jb_data response) []);
      apply (maintains_ret _ (fun _ => True)); exact I.
  - intros env project.
    apply (maintains_tool env
             (fun c => WakaTimeClient.get_all_time_since_today env c project));
      [| exact Hw].
    intros c K. apply maintains_unwrap, K.
  - intros env.
    apply (maintains_tool env (fun c => WakaTimeClient.get_status_bar env c));
      [| exact Hw].
    intros c K. apply maintains_unwrap, K.
  - intros env query.
    apply (maintains_tool env (fun c => WakaTimeClient.get_projects env c query));
      [| exact Hw].
    intros c K. apply maintains_unwrap, K.
Qed.

Lemma tools_keep_the_world_keyed_witness :
  Spec.keyed
    (snd (get_summary (Sample.env [Sample.day1]) None None None Sample.fresh)).
Proof.
  apply (tools_keep_the_world_keyed Sample.fresh).
  split; [discriminate | constructor].
Defined.

(** ** The client singleton *)

Lemma get_client_log {D : Type} (env : environment D) (w w1 : world)
    (r : result client) :
  get_client env w = (r, w1) -> sent w1 = sent w.
Proof.
  intros E. destruct (sends_get_client env w) as (l & El & Ll).
  rewrite E in El. simpl in El. destruct l; [| simpl in Ll; lia].
  rewrite app_nil_r in El. exact El.
Qed.

(** X3: [get_client] builds the client at most once: after a call that
    succeeded, every later call returns that same client and leaves
    the world alone, whatever the environment has become; a call that
    failed leaves the world as it was, so a later call with a key in
    the environment succeeds; and no call sends a request. *)
Theorem get_client_is_a_singleton {D : Type} (env : environment D)
    (w w1 : world) (r : result client) :
  get_client env w = (r, w1) ->
  sent w1 = sent w /\
  (forall c, r = Ok c ->
     the_client w1 = Some c /\
     forall (D' : Type) (env' : environment D'),
       get_client env' w1 = (Ok c, w1)) /\
  (forall e, r = Raise e ->
     w1 = w /\ the_client w = None /\
     forall (D' : Type) (env' : environment D') k,
       environ_key env' = Some k -> k <> "" ->
       exists c, fst (get_client env' w1) = Ok c /\ api_key c = k).
Proof.
  intros E. split; [exact (get_client_log env w w1 r E) |].
  unfold get_client in E. destruct (the_client w) as [c0 |] eqn:Hc.
  - injection E as <- <-. split; [| discriminate].
    intros c H. injection H as <-. split; [exact Hc |].
    intros D' env'. unfold get_client. rewrite Hc. reflexivity.
  - destruct (WakaTimeClient.__init__ _ _ _ _) as [c0 | e0] eqn:I;
      injection E as <- <-.
    + split; [| discriminate].
      intros c H. injection H as <-. split; reflexivity.
    + split; [discriminate |].
      intros e H. split; [reflexivity | split; [reflexivity |]].
      intros D' env' k Hk Hne. unfold get_client. rewrite Hc.
      unfold WakaTimeClient.__init__. rewrite Hk.
      destruct k; [contradiction |]. eexists. split; reflexivity.
Qed.

Lemma get_client_is_a_singleton_witness :
  get_client Sample.no_key_env Sample.ready = (Ok Sample.the_client, Sample.ready).
Proof.
  destruct (get_client_is_a_singleton (Sample.env []) Sample.fresh Sample.ready
              (Ok Sample.the_client) eq_refl) as (_ & H & _).
  apply (H Sample.the_client eq_refl).
Defined.

(** ** Upstream failures at the tool boundary *)

Lemma dispatch_ok {D : Type} (r : response D) (b : json_body D) :
  WakaTimeClient.dispatch r = Ok b ->
  status_code r < 400 /\ status_code r <> 202 /\ json r = Some b.
Proof.
  unfold WakaTimeClient.dispatch.
  destruct (Z.eqb_spec (status_code r) 401); [discriminate |].
  destruct (Z.eqb_spec (status_code r) 202);
    [destruct (json r); discriminate |].
  destruct (Z.eqb_spec (status_code r) 429); [discriminate |].
  destruct (Z.leb_spec 400 (status_code r));
    [destruct (json r); discriminate |].
  destruct (json r) as [b' |]; [| discriminate].
  intros E. injection E as <-. repeat split; assumption || lia.
Qed.

Ltac advisory_cases :=
  repeat (first [split | intro]);
  try lia;
  first [reflexivity | discriminate | (simpl in *; congruence)].

Lemma advisory_of_dispatch {D : Type} (r : response D) (e : exn) :
  WakaTimeClient.dispatch r = Raise e ->
  Spec.advisory_for r (format_error e).
Proof.
  unfold WakaTimeClient.dispatch, Spec.advisory_for. intros E.
  destruct (Z.eqb_spec (status_code r) 401) as [H401 | H401].
  { injection E as <-. advisory_cases. }
  destruct (Z.eqb_spec (status_code r) 202) as [H202 | H202].
  { destruct (json r) as [b |] eqn:J; injection E as <-; advisory_cases. }
  destruct (Z.eqb_spec (status_code r) 429) as [H429 | H429].
  { injection E as <-. advisory_cases. }
  destruct (Z.leb_spec 400 (status_code r)) as [H400 | H400].
  { destruct (json r) as [b |] eqn:J; injection E as <-; advisory_cases. }
  destruct (json r) as [b |] eqn:J; [discriminate |]. injection E as <-.
  advisory_cases.
Qed.

Lemma advisory_of_success {D : Type} (r : response D) (b : json_body D)
    (res : pyval) :
  WakaTimeClient.dispatch r = Ok b -> Spec.advisory_for r res.
Proof.
  intros E. destruct (dispatch_ok r b E) as (H1 & H2 & H3).
  unfold Spec.advisory_for. repeat (first [split | intro]); try lia; congruence.
Qed.

Lemma request_answered {D : Type} (env : environment D)
    (answer : result (response D)) (self : client)
    (method endpoint : string) (params : list (string * string)) (w : world) :
  (forall req, transport env req = answer) ->
  fst (WakaTimeClient._request env self method endpoint params w) =
  match answer with
  | Ok r => WakaTimeClient.dispatch r
  | Raise e => Raise e
  end.
Proof.
  intros H. unfold WakaTimeClient._request. rewrite H.
  destruct answer; reflexivity.
Qed.

Ltac run_tool Hc Ht :=
  unfold try_except, bind; rewrite Hc;
  unfold WakaTimeClient.get_stats, WakaTimeClient.get_all_time_since_today,
    WakaTimeClient.get_status_bar, WakaTimeClient.get_projects,
    WakaTimeClient.get_summaries, WakaTimeClient.get_, bind,
    WakaTimeClient._request;
  rewrite Ht.

(** X4: an upstream failure never escapes a tool: with the client
    available, the tool returns a mapping, and when the response is a
    failure the mapping is the advisory of its status (or, when the
    transport itself raised, the advisory of that exception). *)
Theorem tools_report_upstream_failures :
  (forall (env : environment stats_t) answer range w c w1,
      get_client env w = (Ok c, w1) ->
      (forall req, transport env req = answer) ->
      exists res, fst (get_coding_stats env range w) = Ok res /\
                  Spec.reported answer res) /\
  (forall (env : environment all_time_t) answer project w c w1,
      get_client env w = (Ok c, w1) ->
      (forall req, transport env req = answer) ->
      exists res, fst (get_all_time env project w) = Ok res /\
                  Spec.reported answer res) /\
  (forall (env : environment status_bar_t) answer w c w1,
      get_client env w = (Ok c, w1) ->
      (forall req, transport env req = answer) ->
      exists res, fst (get_status_bar env w) = Ok res /\
                  Spec.reported answer res) /\
  (forall (env : environment (list project_t)) answer query w c w1,
      get_client env w = (Ok c, w1) ->
      (forall req, transport env req = answer) ->
      exists res, fst (list_projects env query w) = Ok res /\
                  Spec.reported answer res) /\
  (forall (env : environment (list day_summary)) answer start_date end_date
          project w c w1 yesterday,
      get_client env w = (Ok c, w1) ->
      (forall req, transport env req = answer) ->
      Date.day_before (today env) = Some yesterday ->
      Date.ltb (get (parse_date end_date) (today env))
               (get (parse_date start_date) yesterday) = false ->
      exists res,
        fst (get_summary env start_date end_date project w) = Ok res /\
        Spec.reported answer res).
Proof.
  split; [| split; [| split; [| split]]].
  - intros env answer range w c w1 Hc Ht. unfold get_coding_stats.
    run_tool Hc Ht.
    destruct answer as [r | e];
      [destruct (WakaTimeClient.dispatch r) as [b | e] eqn:E |];
      simpl; eexists; (split; [reflexivity |]);
      [apply (advisory_of_success r b), E | apply advisory_of_dispatch, E
      | reflexivity].
  - intros env answer project w c w1 Hc Ht. unfold get_all_time.
    run_tool Hc Ht.
    destruct answer as [r | e];
      [destruct (WakaTimeClient.dispatch r) as [b | e] eqn:E |];
      simpl; eexists; (split; [reflexivity |]);
      [apply (advisory_of_success r b), E | apply advisory_of_dispatch, E
      | reflexivity].
  - intros env answer w c w1 Hc Ht. unfold get_status_bar.
    run_tool Hc Ht.
    destruct answer as [r | e];
      [destruct (WakaTimeClient.dispatch r) as [b | e] eqn:E |];
      simpl; eexists; (split; [reflexivity |]);
      [apply (advisory_of_success r b), E | apply advisory_of_dispatch, E
      | reflexivity].
  - intros env answer query w c w1 Hc Ht. unfold list_projects.
    run_tool Hc Ht.
    destruct answer as [r | e];
      [destruct (WakaTimeClient.dispatch r) as [b | e] eqn:E |];
      simpl; eexists; (split; [reflexivity |]);
      [apply (advisory_of_success r b), E | apply advisory_of_dispatch, E
      | reflexivity].
  - intros env answer start_date end_date project w c w1 yesterday
      Hc Ht Hy Hlt. unfold get_summary.
    unfold try_except, bind. rewrite Hc, Hy. unfold ret at 1. rewrite Hlt.
    unfold WakaTimeClient.get_summaries, WakaTimeClient.get_,
      WakaTimeClient._request. rewrite Ht.
    destruct answer as [r | e];
      [destruct (WakaTimeClient.dispatch r) as [b | e] eqn:E;
       [destruct (get (jb_data b) []) |] |];
      simpl; eexists; (split; [reflexivity |]);
      first [apply (advisory_of_success r b), E
            | apply advisory_of_dispatch, E
            | reflexivity].
Qed.

(** X5: without a client and without a usable key every tool returns
    the authentication advisory and leaves the world as it found it. *)
Theorem tools_need_a_key (w : world) (key : option string) :
  the_client w = None ->
  Py.truthy key = false ->
  let advisory := format_error
    (WakaTimeAuthError
       ("WAKATIME_API_KEY environment variable not set. " ++
        "Get your API key from https://wakatime.com/settings/api-key")) in
  field "error" advisory = Some (PStr "Authentication failed") /\
  (forall env range,
      environ_key env = key ->
      get_coding_stats env range w = (Ok advisory, w)) /\
  (forall env start_date end_date project,
      environ_key env = key ->
      get_summary env start_date end_date project w = (Ok advisory, w)) /\
  (forall env project,
      environ_key env = key -> get_all_time env project w = (Ok advisory, w)) /\
  (forall env,
      environ_key env = key -> get_status_bar env w = (Ok advisory, w)) /\
  (forall env query,
      environ_key env = key -> list_projects env query w = (Ok advisory, w)).
Proof.
  intros Hw Hk advisory.
  assert (G : forall (D : Type) (env : environment D),
             environ_key env = key ->
             get_client env w =
               (Raise (WakaTimeAuthError
                  ("WAKATIME_API_KEY environment variable not set. " ++
                   "Get your API key from https://wakatime.com/settings/api-key")),
                w)).
  { intros D env He. unfold get_client. rewrite Hw.
    unfold WakaTimeClient.__init__. cbv zeta. rewrite He, Hk. reflexivity. }
  split; [reflexivity |].
  repeat split; intros;
    unfold get_coding_stats, get_summary, get_all_time, get_status_bar,
      list_projects, try_except, bind;
    rewrite (G _ _ H); reflexivity.
Qed.

Lemma tools_need_a_key_witness :
  get_status_bar (Sample.answering None (Sample.ok (mkstatusbar None None None)))
    Sample.fresh =
  (Ok (format_error
         (WakaTimeAuthError
            ("WAKATIME_API_KEY environment variable not set. " ++
             "Get your API key from https://wakatime.com/settings/api-key"))),
   Sample.fresh).
Proof.
  destruct (tools_need_a_key Sample.fresh None eq_refl eq_refl)
    as (_ & _ & _ & _ & H & _).
  apply H. reflexivity.
Defined.

Lemma tools_report_upstream_failures_witness :
  exists res,
    fst (get_all_time
           (Sample.answering (Some "waka_0000")
              (mkresponse 401 "Unauthorized" None))
           None Sample.fresh) = Ok res /\
    field "error" res = Some (PStr "Authentication failed").
Proof.
  destruct tools_report_upstream_failures as (_ & H & _).
  destruct (H (Sample.answering (Some "waka_0000")
                 (mkresponse 401 "Unauthorized" None))
              (Ok (mkresponse 401 "Unauthorized" None)) None
              Sample.fresh Sample.the_client Sample.ready eq_refl
              (fun _ => eq_refl)) as (res & R & A).
  exists res. split; [exact R |]. apply A. reflexivity.
Defined.

(** * More on format_seconds *)

Lemma int_ceiling (x : Q) : (x < 0)%Q -> Py.int x = Qceiling x.
Proof.
  destruct x as [a b]. unfold Qlt, Py.int, Qceiling, Qfloor, Qopp. simpl.
  intros Ha. rewrite <- (Z.opp_involutive a) at 1.
  rewrite Z.quot_opp_l by lia. f_equal. apply Z.quot_div_nonneg; lia.
Qed.

(** X6: a negative number of seconds is never turned into minutes,
    hours or days: whatever its size it is printed in whole seconds,
    truncated toward zero. *)
Theorem format_seconds_negative (n : Q) :
  (n < 0)%Q ->
  WakaTimeClient.format_seconds n = Py.str (Qceiling n) ++ " secs".
Proof.
  intros Hn. unfold WakaTimeClient.format_seconds.
  assert (H : Py.ltb n 60 = true).
  { apply ltb_lt. eapply Qlt_trans; [exact Hn | reflexivity]. }
  rewrite H, int_ceiling by exact Hn. reflexivity.
Qed.

Lemma format_seconds_negative_witness :
  WakaTimeClient.format_seconds (-7200) = "-7200 secs".
Proof.
  rewrite (format_seconds_negative (-7200)) by reflexivity. reflexivity.
Defined.

Lemma floordiv_Z (z : Z) (p : positive) :
  Py.floordiv (inject_Z z) (inject_Z (Zpos p)) = z / Zpos p.
Proof. rewrite floordiv_pos. simpl. f_equal. Qed.

Lemma floordiv_Z60 (z : Z) : Py.floordiv (inject_Z z) 60 = z / 60.
Proof. exact (floordiv_Z z 60). Qed.

(** X7: [format_seconds] reads whole units only: below a minute the
    fraction of a second is dropped, from a minute on the seconds left
    over are dropped, and from a day on the minutes left over are
    dropped too, so two durations within the same whole second, minute
    or hour print alike. *)
Theorem format_seconds_drops_remainders (n : Q) :
  (0 <= n)%Q ->
  ((n < 60)%Q ->
   WakaTimeClient.format_seconds n =
   WakaTimeClient.format_seconds (inject_Z (Qfloor n))) /\
  ((60 <= n)%Q ->
   WakaTimeClient.format_seconds n =
   WakaTimeClient.format_seconds (inject_Z (60 * Qfloor (n / 60)))) /\
  ((86400 <= n)%Q ->
   WakaTimeClient.format_seconds n =
   WakaTimeClient.format_seconds (inject_Z (3600 * Qfloor (n / 3600)))).
Proof.
  intros Hn.
  pose proof (floor_div_pos n 60) as F60.
  pose proof (floor_div_pos n 3600) as F3600.
  change (inject_Z 60) with 60%Q in F60.
  change (inject_Z 3600) with 3600%Q in F3600.
  assert (Hm : Py.floordiv n 60 = Qnum n / (Zpos (Qden n) * 60))
    by exact (floordiv_pos n 60).
  split; [| split].
  - intros Hlt. unfold WakaTimeClient.format_seconds.
    assert (H1 : Py.ltb n 60 = true) by (apply ltb_lt; exact Hlt).
    assert (H2 : Py.ltb (inject_Z (Qfloor n)) 60 = true).
    { apply ltb_lt. eapply Qle_lt_trans; [apply Qfloor_le | exact Hlt]. }
    rewrite H1, H2, int_floor by exact Hn.
    unfold Py.int. simpl. rewrite Z.quot_1_r. reflexivity.
  - intros Hge. unfold WakaTimeClient.format_seconds.
    assert (Hk : 1 <= Qnum n / (Zpos (Qden n) * 60)).
    { destruct n as [a b]. unfold Qle in Hge. simpl in *.
      apply Z.div_le_lower_bound; lia. }
    assert (H1 : Py.ltb n 60 = false) by (apply ltb_ge; exact Hge).
    assert (H2 : Py.ltb (inject_Z (60 * Qfloor (n / 60))) 60 = false).
    { apply ltb_ge. change 60%Q with (inject_Z 60) at 1.
      rewrite <- Zle_Qle, F60. lia. }
    rewrite H1, H2. cbv zeta. rewrite !floordiv_Z60, F60, <- Hm.
    replace (60 * Py.floordiv n 60 / 60) with (Py.floordiv n 60)
      by (rewrite Z.mul_comm, Z.div_mul; lia).
    reflexivity.
  - intros Hge. unfold WakaTimeClient.format_seconds.
    assert (G60 : (60 <= n)%Q)
      by (eapply Qle_trans; [| exact Hge]; discriminate).
    assert (Hh : Py.floordiv n 60 / 60 = Qnum n / (Zpos (Qden n) * 3600)).
    { rewrite Hm, Z.div_div by lia. f_equal. lia. }
    assert (Hk : 24 <= Qnum n / (Zpos (Qden n) * 3600)).
    { destruct n as [a b]. unfold Qle in Hge. simpl in *.
      apply Z.div_le_lower_bound; lia. }
    assert (H1 : Py.ltb n 60 = false) by (apply ltb_ge; exact G60).
    assert (H2 : Py.ltb (inject_Z (3600 * Qfloor (n / 3600))) 60 = false).
    { apply ltb_ge. change 60%Q with (inject_Z 60) at 1.
      rewrite <- Zle_Qle, F3600. lia. }
    rewrite H1, H2. cbv zeta. rewrite !floordiv_Z60, F3600, <- Hh.
    set (h := Py.floordiv n 60 / 60) in *.
    assert (Hmin : 60 <= Py.floordiv n 60).
    { unfold h in Hh. rewrite Hm. rewrite Hm in Hh.
      destruct n as [a b]. unfold Qle in Hge. simpl in *.
      apply Z.div_le_lower_bound; lia. }
    replace (3600 * h / 60) with (60 * h)
      by (replace (3600 * h) with (60 * h * 60) by lia;
          rewrite Z.div_mul; lia).
    replace (Py.floordiv n 60 <? 60) with false
      by (symmetry; apply Z.ltb_ge; exact Hmin).
    replace (60 * h <? 60) with false by (symmetry; apply Z.ltb_ge; lia).
    replace (60 * h / 60) with h by (rewrite Z.mul_comm, Z.div_mul; lia).
    fold h.
    replace (h <? 24) with false by (symmetry; apply Z.ltb_ge; lia).
    reflexivity.
Qed.

Lemma format_seconds_drops_remainders_witness :
  WakaTimeClient.format_seconds 3725.5 = WakaTimeClient.format_seconds 3720.
Proof.
  destruct (format_seconds_drops_remainders 3725.5) as (_ & H & _);
    [discriminate |].
  rewrite H by discriminate. reflexivity.
Defined.

(** * Dates in and out *)

Lemma digit_of_val (c : ascii) (k : Z) :
  Date.digit_val c = Some k -> Date.digit k = c /\ 0 <= k <= 9.
Proof.
  unfold Date.digit_val, Date.digit.
  destruct ((48 <=? Z.of_nat (nat_of_ascii c)) &&
            (Z.of_nat (nat_of_ascii c) <=? 57)) eqn:B; [| discriminate].
  apply andb_true_iff in B. destruct B as (B1 & B2).
  apply Z.leb_le in B1, B2. intros E. injection E as <-. split; [| lia].
  replace (48 + Z.to_nat (Z.of_nat (nat_of_ascii c) - 48))%nat
    with (nat_of_ascii c) by lia.
  apply ascii_nat_embedding.
Qed.

Lemma Some_eq {A : Type} (a b : A) : Some a = Some b -> a = b.
Proof. congruence. Qed.

Lemma number2 (c1 c2 : ascii) (n : Z) :
  Date.number [c1; c2] = Some n ->
  Date.pad2 n = String c1 (String c2 "").
Proof.
  unfold Date.number. cbn [fold_left].
  destruct (Date.digit_val c1) as [k1 |] eqn:E1; [| discriminate].
  destruct (Date.digit_val c2) as [k2 |] eqn:E2; [| discriminate].
  destruct (digit_of_val _ _ E1) as (D1 & R1).
  destruct (digit_of_val _ _ E2) as (D2 & R2).
  intros E. apply Some_eq in E. unfold Date.pad2.
  replace (n / 10) with k1 by (subst n; Z.div_mod_to_equations; lia).
  replace (n mod 10) with k2 by (subst n; Z.div_mod_to_equations; lia).
  rewrite D1, D2. reflexivity.
Qed.

Lemma number4 (c1 c2 c3 c4 : ascii) (n : Z) :
  Date.number [c1; c2; c3; c4] = Some n ->
  Date.pad4 n = String c1 (String c2 (String c3 (String c4 ""))).
Proof.
  unfold Date.number. cbn [fold_left].
  destruct (Date.digit_val c1) as [k1 |] eqn:E1; [| discriminate].
  destruct (Date.digit_val c2) as [k2 |] eqn:E2; [| discriminate].
  destruct (Date.digit_val c3) as [k3 |] eqn:E3; [| discriminate].
  destruct (Date.digit_val c4) as [k4 |] eqn:E4; [| discriminate].
  destruct (digit_of_val _ _ E1) as (D1 & R1).
  destruct (digit_of_val _ _ E2) as (D2 & R2).
  destruct (digit_of_val _ _ E3) as (D3 & R3).
  destruct (digit_of_val _ _ E4) as (D4 & R4).
  intros E. apply Some_eq in E. unfold Date.pad4, Date.pad2.
  replace (n / 1000) with k1 by (subst n; Z.div_mod_to_equations; lia).
  replace (n / 100 mod 10) with k2 by (subst n; Z.div_mod_to_equations; lia).
  replace (n mod 100 / 10) with k3 by (subst n; Z.div_mod_to_equations; lia).
  replace (n mod 100 mod 10) with k4 by (subst n; Z.div_mod_to_equations; lia).
  rewrite D1, D2, D3, D4. reflexivity.
Qed.

Lemma isoformat_fromisoformat (s : string) (d : Date.date) :
  Date.fromisoformat s = Some d -> Date.isoformat d = s.
Proof.
  unfold Date.fromisoformat. intros H.
  rewrite <- (string_of_list_ascii_of_string s).
  destruct (list_ascii_of_string s) as [| y1 [| y2 [| y3 [| y4 [| h1 [| m1
    [| m2 [| h2 [| d1 [| d2 [| x l]]]]]]]]]]]; try discriminate.
  all: try (destruct h1 as [[] [] [] [] [] [] [] []]; discriminate).
  all: try (destruct h1 as [[] [] [] [] [] [] [] []]; try discriminate;
            destruct h2 as [[] [] [] [] [] [] [] []]; discriminate).
  destruct h1 as [[] [] [] [] [] [] [] []]; try discriminate.
  destruct h2 as [[] [] [] [] [] [] [] []]; try discriminate.
  destruct (Date.number [y1; y2; y3; y4]) as [y |] eqn:Ey; [| discriminate].
  destruct (Date.number [m1; m2]) as [m |] eqn:Em; [| discriminate].
  destruct (Date.number [d1; d2]) as [dd |] eqn:Ed; [| discriminate].
  destruct (Date.validb (Date.mkdate y m dd)); [| discriminate].
  injection H as <-. unfold Date.isoformat. cbn [Date.year Date.month Date.day].
  rewrite (number4 _ _ _ _ _ Ey), (number2 _ _ _ Em), (number2 _ _ _ Ed).
  reflexivity.
Qed.

Lemma parsed_prints_back (s : string) (d : Date.date) :
  parse_date (Some s) = Some d -> Date.isoformat d = s.
Proof.
  unfold parse_date. destruct (negb (Py.truthy (Some s))); [discriminate |].
  apply isoformat_fromisoformat.
Qed.



Section SummaryRequests.

Variable env : environment (list day_summary).
Variable project : option string.


End SummaryRequests.


Lemma day_before_earlier (d y : Date.date) :
  Date.valid d -> Date.day_before d = Some y -> Date.ltb y d = true.
Proof.
  intros Hv Hy. destruct (day_before_spec d y Hv Hy) as (Hvy & Ho & Hlt).
  destruct (Date.ltb y d) eqn:E; [reflexivity | exfalso].
  apply not_true_iff_false in E, Hlt. rewrite ltb_true_iff in E, Hlt.
  assert (y = d) by (destruct y, d; simpl in *; f_equal; lia).
  subst y. lia.
Qed.

Section DefaultWindow.

Variable env : environment (list day_summary).
Variable project : option string.

(** X10: called without dates, [get_summary] asks for yesterday through
    today, and a non-empty answer always takes the multi-day path:
    [num_days] is 2, the daily average is the total halved, and the
    single-day key [date] is absent. *)
Theorem default_window_is_two_days (w w1 w2 : world) (c : client)
    (yesterday : Date.date) (body : json_body (list day_summary))
    (day : day_summary) (rest : list day_summary) :
  Date.valid (today env) ->
  get_client env w = (Ok c, w1) ->
  Date.day_before (today env) = Some yesterday ->
  WakaTimeClient.get_summaries env c (Some yesterday) (Some (today env))
    project w1 = (Ok body, w2) ->
  jb_data body = Some (day :: rest) ->
  exists res total_seconds,
    get_summary env None None project w = (Ok res, w2) /\
    field "start_date" res = Some (PStr (Date.isoformat yesterday)) /\
    field "end_date" res = Some (PStr (Date.isoformat (today env))) /\
    field "num_days" res = Some (PNum (inject_Z 2)) /\
    field "total_seconds" res = Some (PNum total_seconds) /\
    field "daily_average" res =
      Some (PStr (WakaTimeClient.format_seconds
                    (total_seconds / inject_Z 2))) /\
    field "date" res = None.
Proof.
  intros Hv Hc Hy Hs Hd.
  pose proof (day_before_earlier _ _ Hv Hy) as Hlt.
  destruct (day_before_spec _ _ Hv Hy) as (_ & Ho & _).
  destruct (ltb_antisym _ _ Hlt) as (Hge & Hneq).
  pose proof (get_summary_upstream env None None project w w1 w2 c yesterday
                body Hc Hy Hge Hs) as R.
  rewrite Hd in R. cbn [get parse_date Py.truthy negb] in R.
  rewrite Hneq in R. cbn [negb] in R.
  assert (N : Date.days_between (today env) yesterday + 1 = 2)
    by (unfold Date.days_between; lia).
  eexists. exists (total (aggregate (day :: rest))).
  split; [exact R |].
  unfold range_result. rewrite N.
  repeat split; try (apply field_with_filter; reflexivity).
  destruct (Py.truthy project); reflexivity.
Qed.

(** X11: the project filter is echoed as [project_filter] exactly when
    a non-empty project was given and upstream returned at least one
    summary; the empty-period result never carries it. *)
Theorem project_filter_is_echoed (start_date end_date : option string)
    (w w1 w2 : world) (c : client) (yesterday : Date.date)
    (body : json_body (list day_summary)) :
  get_client env w = (Ok c, w1) ->
  Date.day_before (today env) = Some yesterday ->
  let start := get (parse_date start_date) yesterday in
  let end_ := get (parse_date end_date) (today env) in
  Date.ltb end_ start = false ->
  WakaTimeClient.get_summaries env c (Some start) (Some end_) project w1 =
    (Ok body, w2) ->
  exists res,
    get_summary env start_date end_date project w = (Ok res, w2) /\
    field "project_filter" res =
      match get (jb_data body) [], project with
      | _ :: _, Some (String a p) => Some (PStr (String a p))
      | _, _ => None
      end.
Proof.
  intros Hc Hy start end_ Hlt Hs.
  pose proof (get_summary_upstream env start_date end_date project
                w w1 w2 c yesterday body Hc Hy Hlt Hs) as R.
  fold start end_ in R. eexists. split; [exact R |].
  destruct (get (jb_data body) []) as [| day rest]; [reflexivity |].
  cbv zeta. destruct (negb (Date.eqb start end_));
    destruct project as [[| a p] |]; reflexivity.
Qed.

End DefaultWindow.

Lemma default_window_is_two_days_witness :
  exists res,
    get_summary (Sample.env [Sample.day1; Sample.day2]) None None None
      Sample.fresh =
      (Ok res, Sample.asked "2024-01-14" "2024-01-15") /\
    field "num_days" res = Some (PNum (inject_Z 2)).
Proof.
  destruct (default_window_is_two_days
              (Sample.env [Sample.day1; Sample.day2]) None
              Sample.fresh Sample.ready
              (Sample.asked "2024-01-14" "2024-01-15") Sample.the_client
              (Date.mkdate 2024 1 14)
              (mkbody None None (Some [Sample.day1; Sample.day2]))
              Sample.day1 [Sample.day2])
    as (res & t & R & _ & _ & N & _); try reflexivity.
  exists res. split; assumption.
Defined.

Lemma project_filter_is_echoed_witness :
  exists res,
    get_summary (Sample.env [Sample.day1]) (Some "2024-01-01")
      (Some "2024-01-01") (Some "api") Sample.fresh =
      (Ok res,
       mkworld (Some Sample.the_client)
         [mkrequest "GET"
            "https://api.wakatime.com/api/v1/users/current/summaries"
            "waka_0000"
            [("start", "2024-01-01"); ("end", "2024-01-01");
             ("project", "api")]]) /\
    field "project_filter" res = Some (PStr "api").
Proof.
  apply (project_filter_is_echoed (Sample.env [Sample.day1]) (Some "api")
           (Some "2024-01-01") (Some "2024-01-01")
           Sample.fresh Sample.ready _ Sample.the_client
           (Date.mkdate 2024 1 14) (mkbody None None (Some [Sample.day1])));
    reflexivity.
Defined.

(** * More on the aggregation *)

Lemma Qsum_dict_set (k : string) (v : Q) (l : list (string * Q)) :
  (Spec.Qsum (map snd (dict_set k v l)) ==
   Spec.Qsum (map snd l) - get (lookup k l) 0 + v)%Q.
Proof.
  induction l as [| [k0 v0] l IH]; simpl.
  - ring.
  - destruct (String.eqb_spec k k0) as [-> | Hne]; simpl.
    + ring.
    + rewrite IH. ring.
Qed.

Lemma Qsum_accumulate (xs : list item) :
  forall totals,
    (Spec.Qsum (map snd (accumulate totals xs)) ==
     Spec.Qsum (map snd totals) + Spec.Qsum (map Spec.item_seconds xs))%Q.
Proof.
  induction xs as [| x xs IH]; intros totals.
  - simpl. ring.
  - unfold accumulate. simpl. fold (Spec.item_name x). fold (Spec.item_seconds x).
    set (t1 := dict_set (Spec.item_name x) _ totals).
    fold (accumulate t1 xs). rewrite IH. unfold t1.
    rewrite Qsum_dict_set. ring.
Qed.


(** ** Ties and the cut *)

Lemma filter_insert_desc (v : Q) (x : string * Q) (l : list (string * Q)) :
  filter (fun y => Qeq_bool (snd y) v) (insert_desc x l) =
  filter (fun y => Qeq_bool (snd y) v) (x :: l).
Proof.
  induction l as [| y l IH]; [reflexivity |].
  cbn [insert_desc]. destruct (Py.ltb (snd x) (snd y)) eqn:E; [| reflexivity].
  cbn [filter] in *. rewrite IH.
  destruct (Qeq_bool (snd x) v) eqn:Ex; [| reflexivity].
  destruct (Qeq_bool (snd y) v) eqn:Ey; [| reflexivity].
  exfalso. apply Qeq_bool_iff in Ex, Ey. apply ltb_lt in E.
  rewrite Ex, Ey in E. exact (Qlt_irrefl v E).
Qed.

(** X13: the ranking is stable: names whose accumulated seconds are
    equal keep the order in which they first appeared upstream. *)
Theorem ranking_keeps_ties_in_order (totals : list (string * Q)) (v : Q) :
  filter (fun y => Qeq_bool (snd y) v) (sorted_desc totals) =
  filter (fun y => Qeq_bool (snd y) v) totals.
Proof.
  induction totals as [| x l IH]; [reflexivity |].
  cbn [sorted_desc fold_right]. fold (sorted_desc l).
  rewrite filter_insert_desc. cbn [filter]. rewrite IH. reflexivity.
Qed.

Lemma sorted_app_dominates (l1 l2 : list (string * Q)) :
  StronglySorted Spec.descending (l1 ++ l2) ->
  forall x y, In x l1 -> In y l2 -> (snd y <= snd x)%Q.
Proof.
  induction l1 as [| a l1 IH]; intros H x y Hx Hy; [contradiction |].
  simpl in H. inversion H as [| ? ? Hs Hall]; subst.
  destruct Hx as [<- | Hx].
  - rewrite Forall_forall in Hall. apply (Hall y).
    apply in_or_app. right. exact Hy.
  - apply (IH Hs x y Hx Hy).
Qed.

(** X14: the cut keeps the largest: a breakdown lists
    [min(limit, number of names)] entries, the names at the head of
    the ranking, and every name it leaves out has accumulated no more
    seconds than any name it lists. *)
Theorem breakdown_lists_the_largest (total_seconds : Q)
    (totals : list (string * Q)) (limit : nat) :
  let shown := firstn limit (sorted_desc totals) in
  let dropped := skipn limit (sorted_desc totals) in
  List.length (format_breakdown total_seconds totals limit) =
    Nat.min limit (List.length totals) /\
  map (field "name") (format_breakdown total_seconds totals limit) =
    map (fun x => Some (PStr (fst x))) shown /\
  Permutation (shown ++ dropped) totals /\
  forall x y, In x shown -> In y dropped -> (snd y <= snd x)%Q.
Proof.
  intros shown dropped. split; [| split; [| split]].
  - unfold format_breakdown. rewrite length_map, length_firstn.
    rewrite (Permutation_length (sorted_desc_perm totals)). reflexivity.
  - unfold format_breakdown. fold shown. rewrite map_map.
    apply map_ext. intros [n s]. reflexivity.
  - unfold shown, dropped. rewrite firstn_skipn. apply sorted_desc_perm.
  - apply sorted_app_dominates. unfold shown, dropped.
    rewrite firstn_skipn. apply sorted_desc_sorted.
Qed.

(** ** The recomputed percent *)

Lemma round_half_even_near (x : Q) :
  (inject_Z (Py.round_half_even x) - x <= 1 # 2)%Q /\
  (x - inject_Z (Py.round_half_even x) <= 1 # 2)%Q.
Proof.
  unfold Py.round_half_even. cbv zeta.
  pose proof (Qfloor_le x) as Hlo. pose proof (Qlt_floor x) as Hhi.
  rewrite inject_Z_plus in Hhi. change (inject_Z 1) with 1%Q in Hhi.
  destruct (Qcompare_spec (x - inject_Z (Qfloor x)) (1 # 2)) as [E | L | G].
  - destruct (Z.even (Qfloor x)).
    + split; lra.
    + rewrite inject_Z_plus. change (inject_Z 1) with 1%Q. split; lra.
  - split; lra.
  - rewrite inject_Z_plus. change (inject_Z 1) with 1%Q. split; lra.
Qed.

Lemma round1_near (x : Q) :
  (Py.round1 x - x <= 1 # 20)%Q /\ (x - Py.round1 x <= 1 # 20)%Q.
Proof.
  destruct (round_half_even_near (x * 10)) as (H1 & H2).
  assert (E : (Py.round1 x ==
               inject_Z (Py.round_half_even (x * 10)) * (1 # 10))%Q).
  { unfold Py.round1. rewrite Qmake_Qdiv. reflexivity. }
  rewrite E. split; lra.
Qed.

Lemma round1_range (x : Q) :
  (0 <= x)%Q -> (x <= 100)%Q -> (0 <= Py.round1 x)%Q /\ (Py.round1 x <= 100)%Q.
Proof.
  intros H0 H100.
  destruct (round_half_even_near (x * 10)) as (H1 & H2).
  set (r := Py.round_half_even (x * 10)) in *.
  assert (Hr0 : 0 <= r).
  { assert (inject_Z (-1) < inject_Z r)%Q
      by (change (inject_Z (-1)) with (-1 # 1)%Q; lra).
    rewrite <- Zlt_Qlt in H. lia. }
  assert (Hr1 : r <= 1000).
  { assert (inject_Z r < inject_Z 1001)%Q
      by (change (inject_Z 1001) with 1001%Q; lra).
    rewrite <- Zlt_Qlt in H. lia. }
  unfold Py.round1. fold r. unfold Qle. simpl. lia.
Qed.



(** * The other tools *)

(** X16: [list_projects] counts before it cuts: [total_count] is the
    number of projects the client returned, the list holds the first
    50 of them in upstream order, so beyond 50 projects the count
    exceeds the list, and [query] is echoed only when non-empty. *)
Theorem list_projects_counts_all (env : environment (list project_t))
    (query : option string) (w w1 w2 : world) (c : client)
    (projects : list project_t) :
  get_client env w = (Ok c, w1) ->
  WakaTimeClient.get_projects env c query w1 = (Ok projects, w2) ->
  exists res out,
    list_projects env query w = (Ok res, w2) /\
    field "total_count" res =
      Some (PNum (inject_Z (Z.of_nat (List.length projects)))) /\
    field "projects" res = Some (PList out) /\
    List.length out = Nat.min 50 (List.length projects) /\
    (forall i p, (i < 50)%nat -> nth_error projects i = Some p ->
                 nth_error out i = Some (project_entry p)) /\
    field "query" res =
      match query with
      | Some (String a q) => Some (PStr (String a q))
      | _ => None
      end.
Proof.
  intros Hc Hp.
  exists (PDict
            (let result :=
               [("total_count",
                 PNum (inject_Z (Z.of_nat (List.length projects))));
                ("projects", PList (map project_entry (firstn 50 projects)))] in
             if Py.truthy query
             then app result [("query", PStr (get query ""))]
             else result)).
  exists (map project_entry (firstn 50 projects)).
  split.
  { unfold list_projects, try_except, bind. rewrite Hc, Hp. reflexivity. }
  split; [destruct (Py.truthy query); reflexivity |].
  split; [destruct (Py.truthy query); reflexivity |].
  split; [rewrite length_map; apply length_firstn |].
  split.
  - intros i p Hi Hn. rewrite nth_error_map, nth_error_firstn.
    apply PeanoNat.Nat.ltb_lt in Hi. rewrite Hi, Hn. reflexivity.
  - destruct query as [[| a q] |]; reflexivity.
Qed.

(** X17: [get_status_bar] reports [is_cached] exactly when upstream
    gave a [cached_at], and carries [categories] only when upstream
    listed some, then at most the first five, reshaped. *)
Theorem status_bar_shape (env : environment status_bar_t)
    (w w1 w2 : world) (c : client) (data : option status_bar_t) :
  get_client env w = (Ok c, w1) ->
  WakaTimeClient.get_status_bar env c w1 = (Ok data, w2) ->
  let bar := get data empty_status_bar in
  let categories := get (sb_categories bar) [] in
  exists res,
    get_status_bar env w = (Ok res, w2) /\
    field "today_total" res =
      Some (PStr (get (gt_text (get (sb_grand_total bar) empty_grand))
                      "0 mins")) /\
    (field "is_cached" res = Some (PBool true) <-> cached_at bar <> None) /\
    (field "is_cached" res = Some (PBool false) <-> cached_at bar = None) /\
    (categories = [] -> field "categories" res = None) /\
    (categories <> [] ->
     exists out, field "categories" res = Some (PList out) /\
                 Spec.shaped 5 false categories out).
Proof.
  intros Hc Hs bar categories.
  eexists. split.
  { unfold get_status_bar, try_except, bind. rewrite Hc, Hs. unfold ret.
    fold bar. reflexivity. }
  fold categories.
  split; [destruct categories; reflexivity |].
  split; [| split; [| split]].
  - destruct categories; destruct (cached_at bar); simpl;
      split; congruence.
  - destruct categories; destruct (cached_at bar); simpl;
      split; congruence.
  - intros ->. reflexivity.
  - intros Hne. destruct categories as [| x l] eqn:E; [contradiction |].
    eexists. split; [reflexivity | apply reshape_shaped].
Qed.



(** * base64 *)

Lemma byte_range (c : ascii) : 0 <= Base64.byte c < 256.
Proof.
  unfold Base64.byte. pose proof (N_ascii_bounded c). lia.
Qed.

Lemma of_byte_byte (c : ascii) : Base64.of_byte (Base64.byte c) = c.
Proof.
  unfold Base64.of_byte, Base64.byte. rewrite N2Z.id. apply ascii_N_embedding.
Qed.

Lemma of_byte_eq (n : Z) (c : ascii) : n = Base64.byte c -> Base64.of_byte n = c.
Proof. intros ->. apply of_byte_byte. Qed.

Lemma sextet_cases (i : Z) :
  0 <= i < 64 -> exists n : nat, (n < 64)%nat /\ i = Z.of_nat n.
Proof. intros H. exists (Z.to_nat i). lia. Qed.

Lemma dec_enc (i : Z) : 0 <= i < 64 -> Base64.dec (Base64.enc i) = Some i.
Proof.
  intros H. destruct (sextet_cases i H) as (n & Hn & ->).
  do 64 (destruct n as [| n]; [reflexivity |]). lia.
Qed.

Lemma enc_not_pad (i : Z) :
  0 <= i < 64 -> Ascii.eqb (Base64.enc i) "="%char = false.
Proof.
  intros H. destruct (sextet_cases i H) as (n & Hn & ->).
  do 64 (destruct n as [| n]; [reflexivity |]). lia.
Qed.

Lemma list_ind3 {A : Type} (P : list A -> Prop) :
  P [] -> (forall a, P [a]) -> (forall a b, P [a; b]) ->
  (forall a b c l, P l -> P (a :: b :: c :: l)) ->
  forall l, P l.
Proof.
  intros H0 H1 H2 H3 l.
  enough (P l /\ (forall a, P (a :: l)) /\ forall a b, P (a :: b :: l))
    by tauto.
  induction l as [| x l (IH0 & IH1 & IH2)]; [auto |].
  repeat split; auto.
Qed.

Lemma b64decode_b64encode (bytes : list ascii) :
  Base64.b64decode (Base64.b64encode bytes) = Some bytes.
Proof.
  induction bytes as [| a | a b | a b c rest IH] using list_ind3.
  - reflexivity.
  - pose proof (byte_range a) as Ha.
    cbn [Base64.b64encode Base64.b64decode].
    rewrite (dec_enc (_ / 262144)) by (Z.div_mod_to_equations; lia).
    do 1 rewrite (dec_enc (_ mod 64)) by (Z.div_mod_to_equations; lia).
    change (Ascii.eqb "=" "=") with true. cbv iota.
    do 2 f_equal. apply of_byte_eq.
    Z.div_mod_to_equations; lia.
  - pose proof (byte_range a) as Ha. pose proof (byte_range b) as Hb.
    cbn [Base64.b64encode Base64.b64decode].
    rewrite (dec_enc (_ / 262144)) by (Z.div_mod_to_equations; lia).
    do 2 rewrite (dec_enc (_ mod 64)) by (Z.div_mod_to_equations; lia).
    rewrite (enc_not_pad (_ mod 64)) by (Z.div_mod_to_equations; lia).
    change (Ascii.eqb "=" "=") with true. cbv iota.
    f_equal. f_equal; [| f_equal].
    + apply of_byte_eq. Z.div_mod_to_equations; lia.
    + apply of_byte_eq. Z.div_mod_to_equations; lia.
  - pose proof (byte_range a) as Ha. pose proof (byte_range b) as Hb.
    pose proof (byte_range c) as Hc.
    cbn [Base64.b64encode Base64.b64decode].
    rewrite (dec_enc (_ / 262144)) by (Z.div_mod_to_equations; lia).
    do 3 rewrite (dec_enc (_ mod 64)) by (Z.div_mod_to_equations; lia).
    do 2 rewrite (enc_not_pad (_ mod 64)) by (Z.div_mod_to_equations; lia).
    rewrite IH. f_equal. f_equal; [| f_equal; [| f_equal]].
    + apply of_byte_eq. Z.div_mod_to_equations; lia.
    + apply of_byte_eq. Z.div_mod_to_equations; lia.
    + apply of_byte_eq. Z.div_mod_to_equations; lia.
Qed.

Lemma b64encode_length (bytes : list ascii) :
  Z.of_nat (List.length (Base64.b64encode bytes)) =
  4 * ((Z.of_nat (List.length bytes) + 2) / 3).
Proof.
  induction bytes as [| a | a b | a b c rest IH] using list_ind3;
    try reflexivity.
  cbn [Base64.b64encode List.length].
  rewrite !Nat2Z.inj_succ, IH. Z.div_mod_to_equations; lia.
Qed.

(** * The client's requests *)

(** X20: the authorization header carries the key and nothing else:
    its value is [Basic] and the base64 of the key, which decodes back
    to the key, so two clients send the same header only when they
    hold the same key; the encoding is four characters for every three
    bytes of key, rounded up. *)
Theorem auth_header_carries_the_key (self : client) :
  exists encoded,
    WakaTimeClient._get_auth_header self =
      [("Authorization", "Basic " ++ encoded)] /\
    Base64.b64decode (list_ascii_of_string encoded) =
      Some (list_ascii_of_string (api_key self)) /\
    Z.of_nat (List.length (list_ascii_of_string encoded)) =
      4 * ((Z.of_nat (List.length (list_ascii_of_string (api_key self))) + 2)
           / 3) /\
    forall other,
      WakaTimeClient._get_auth_header other =
      WakaTimeClient._get_auth_header self ->
      api_key other = api_key self.
Proof.
  eexists. split; [reflexivity |].
  rewrite list_ascii_of_string_of_list_ascii.
  split; [apply b64decode_b64encode |].
  split; [apply b64encode_length |].
  intros other H. unfold WakaTimeClient._get_auth_header in H.
  injection H as H. apply (f_equal list_ascii_of_string) in H.
  rewrite !list_ascii_of_string_of_list_ascii in H.
  apply (f_equal Base64.b64decode) in H.
  rewrite !b64decode_b64encode in H. injection H as H.
  rewrite <- (string_of_list_ascii_of_string (api_key other)), H.
  apply string_of_list_ascii_of_string.
Qed.

Lemma isoformat_not_empty (d : Date.date) : Date.isoformat d <> "".
Proof. unfold Date.isoformat, Date.pad4. discriminate. Qed.

Lemma truthy_not_empty (s : option string) :
  Py.truthy s = true -> get s "" <> "".
Proof. destruct s as [[| a s] |]; simpl; discriminate. Qed.

Ltac nonempty_params :=
  repeat constructor; simpl;
  auto using isoformat_not_empty, truthy_not_empty.


(** X22: an envelope without [data] is an empty answer, not a failure:
    the listing methods return the empty list, and [list_projects]
    then reports no project at all. *)
Theorem missing_data_is_empty (self : client) (w : world) :
  (forall P (env : environment (list P)) (r : response (list P)) b query,
      (forall req, transport env req = Ok r) ->
      WakaTimeClient.dispatch r = Ok b -> jb_data b = None ->
      fst (WakaTimeClient.get_projects env self query w) = Ok [] /\
      fst (WakaTimeClient.get_goals env self w) = Ok []) /\
  (forall D (env : environment D) (r : response D) b,
      (forall req, transport env req = Ok r) ->
      WakaTimeClient.dispatch r = Ok b -> jb_data b = None ->
      fst (WakaTimeClient.get_current_user env self w) = Ok None) /\
  (forall (env : environment (list project_t)) r b query w1,
      get_client env w = (Ok self, w1) ->
      (forall req, transport env req = Ok r) ->
      WakaTimeClient.dispatch r = Ok b -> jb_data b = None ->
      exists res,
        fst (list_projects env query w) = Ok res /\
        field "total_count" res = Some (PNum 0) /\
        field "projects" res = Some (PList [])).
Proof.
  split; [| split].
  - intros P env r b query Ht Hd Hb.
    unfold WakaTimeClient.get_projects, WakaTimeClient.get_goals, bind,
      WakaTimeClient.get_, WakaTimeClient._request.
    cbv zeta. rewrite !Ht, Hd. simpl. rewrite Hb. split; reflexivity.
  - intros D env r b Ht Hd Hb.
    unfold WakaTimeClient.get_current_user, bind, WakaTimeClient.get_,
      WakaTimeClient._request.
    rewrite Ht, Hd. simpl. rewrite Hb. reflexivity.
  - intros env r b query w1 Hc Ht Hd Hb.
    unfold list_projects, try_except, bind. rewrite Hc.
    unfold WakaTimeClient.get_projects, bind, WakaTimeClient.get_,
      WakaTimeClient._request.
    cbv zeta. rewrite Ht, Hd. simpl. rewrite Hb.
    eexists. split; [reflexivity |].
    destruct (Py.truthy query); split; reflexivity.
Qed.

Lemma missing_data_is_empty_witness :
  fst (WakaTimeClient.get_goals
         (Sample.answering (Some "waka_0000")
            (mkresponse 200 "{}" (Some (mkbody None None (@None (list unit))))))
         Sample.the_client Sample.ready) = Ok [].
Proof.
  destruct (missing_data_is_empty Sample.the_client Sample.ready) as (H & _).
  apply (H unit
           (Sample.answering (Some "waka_0000")
              (mkresponse 200 "{}" (Some (mkbody None None None))))
           (mkresponse 200 "{}" (Some (mkbody None None None)))
           (mkbody None None None) None (fun _ => eq_refl) eq_refl eq_refl).
Defined.

(** ** The order of the days *)

Lemma Qsum_perm (l1 l2 : list Q) :
  Permutation l1 l2 -> (Spec.Qsum l1 == Spec.Qsum l2)%Q.
Proof.
  induction 1 as [| x l l' _ IH | x y l | l l' l'' _ IH1 _ IH2]; simpl.
  - reflexivity.
  - rewrite IH. reflexivity.
  - ring.
  - rewrite IH1. exact IH2.
Qed.

Lemma name_seconds_perm (n : string) (xs ys : list item) :
  Permutation xs ys -> (Spec.name_seconds n xs == Spec.name_seconds n ys)%Q.
Proof.
  intros H. unfold Spec.name_seconds. apply Qsum_perm.
  apply Permutation_map. clear - H.
  induction H as [| x l l' _ IH | x y l | l l' l'' _ IH1 _ IH2]; simpl.
  - constructor.
  - destruct (String.eqb _ _); [constructor |]; exact IH.
  - destruct (String.eqb (Spec.item_name x) n),
      (String.eqb (Spec.item_name y) n);
      try apply perm_swap; reflexivity.
  - etransitivity; eassumption.
Qed.

Lemma lookup_accumulated (n : string) (xs : list item) :
  (get (lookup n (accumulate [] xs)) 0 == Spec.name_seconds n xs)%Q.
Proof.
  destruct (accumulate_spec xs []) as (_ & _ & V); [constructor |].
  rewrite V. simpl. ring.
Qed.



(** * The added theorems on sample runs *)

Lemma list_projects_counts_all_witness :
  exists res out,
    list_projects
      (Sample.answering (Some "waka_0000") (Sample.ok (Sample.some_projects 60)))
      None Sample.fresh =
      (Ok res, Sample.after "/users/current/projects" []) /\
    field "total_count" res = Some (PNum (inject_Z 60)) /\
    field "projects" res = Some (PList out) /\
    List.length out = 50%nat.
Proof.
  destruct (list_projects_counts_all
              (Sample.answering (Some "waka_0000")
                 (Sample.ok (Sample.some_projects 60)))
              None Sample.fresh Sample.ready
              (Sample.after "/users/current/projects" []) Sample.the_client
              (Sample.some_projects 60) eq_refl eq_refl)
    as (res & out & R & T & P & L & _).
  exists res, out. repeat split; assumption.
Defined.

Lemma status_bar_shape_witness :
  exists res,
    get_status_bar (Sample.answering (Some "waka_0000") (Sample.ok Sample.bar))
      Sample.fresh =
      (Ok res, Sample.after "/users/current/status_bar/today" []) /\
    field "is_cached" res = Some (PBool true).
Proof.
  destruct (status_bar_shape
              (Sample.answering (Some "waka_0000") (Sample.ok Sample.bar))
              Sample.fresh Sample.ready
              (Sample.after "/users/current/status_bar/today" [])
              Sample.the_client (Some Sample.bar) eq_refl eq_refl)
    as (res & R & _ & C & _).
  exists res. split; [exact R |]. apply C. discriminate.
Defined.



Lemma auth_header_carries_the_key_witness :
  WakaTimeClient._get_auth_header Sample.the_client =
    [("Authorization", "Basic d2FrYV8wMDAw")] /\
  forall other,
    WakaTimeClient._get_auth_header other =
    WakaTimeClient._get_auth_header Sample.the_client ->
    api_key other = "waka_0000".
Proof.
  destruct (auth_header_carries_the_key Sample.the_client)
    as (encoded & H & _ & _ & I).
  split; [reflexivity | exact I].
Defined.

Lemma breakdown_lists_the_largest_witness :
  List.length
    (format_breakdown 9000 [("api", 3000%Q); ("docs", 5600%Q); ("cli", 400%Q)] 2)
    = 2%nat /\
  forall x y,
    In x (firstn 2 (sorted_desc [("api", 3000%Q); ("docs", 5600%Q); ("cli", 400%Q)])) ->
    In y (skipn 2 (sorted_desc [("api", 3000%Q); ("docs", 5600%Q); ("cli", 400%Q)])) ->
    (snd y <= snd x)%Q.
Proof.
  destruct (breakdown_lists_the_largest 9000
              [("api", 3000%Q); ("docs", 5600%Q); ("cli", 400%Q)] 2)
    as (L & _ & _ & H).
  split; [exact L | exact H].
Defined.
